(** * RAG with Amazon Bedrock and pgvector: the CDK application

    A shallow embedding of the CDK program of the repository
    ([bin/rag-with-amazon-bedrock-and-rds-pgvector.ts] and the stacks under
    [lib/]).  Every stack constructor is a program of the [Synth] monad: it
    appends, in program order, one declaration per construct it creates and
    per wiring call it makes ([addEventSource], [addTarget], [grantConnect],
    ...), and it may throw.  The claims are settled on the list of
    declarations the program leaves behind.

    The declarations are those the program itself makes.  What the construct
    library adds on its own (the execution role of a function and the
    policies it puts on it, the handler functions behind bucket deployments
    and bucket notifications with their grants) is not declared, and an
    error raised inside a library constructor is not modelled: [Ok] says
    that none of the program's own guards fired. *)

From Stdlib Require Import String Ascii List Bool NArith Arith Lia.
Import ListNotations.

Open Scope string_scope.
Open Scope list_scope.

Set Warnings "-register-all".

(** ** Values *)

(** [cdk.Duration], held in seconds. *)
Module Duration.
Definition t := N.
Definition seconds (n : N) : t := n.
Definition minutes (n : N) : t := (n * 60)%N.
Definition days (n : N) : t := (n * 86400)%N.
End Duration.

(** A string of the program.  A CDK string is either known when the program
    runs ([Lit]), or stands for an attribute of a construct that only the
    deployment resolves ([Attr], such as [queue.queueUrl]), or is a template
    literal over such parts ([Template]). *)
Inductive Token : Type :=
| Lit (s : string)
| Attr (construct : string) (attribute : string)
| Template (parts : list Token).

(** [process.env]: a variable is a string or [undefined]. *)
Definition ProcessEnv := string -> option string.

(** JavaScript's [a || b] on [string | undefined]: the empty string is
    falsy as [undefined] is. *)
Definition or_else (a : option string) (b : string) : string :=
  match a with
  | Some s => if String.eqb s "" then b else s
  | None => b
  end.

(** [Array.prototype.includes] on strings. *)
Definition includes (l : list string) (x : string) : bool :=
  existsb (String.eqb x) l.

(** ** Events and event patterns *)

(** A lifecycle event is a JSON object with string leaves. *)
Inductive Json : Type :=
| JStr (s : string)
| JObj (fields : list (string * Json)).

(** An EventBridge pattern, as the object literals of the program write it:
    an array of accepted strings at a leaf, an object of sub-patterns
    elsewhere. *)
Inductive Pattern : Type :=
| PValues (accepted : list string)
| PObject (fields : list (string * Pattern)).

Fixpoint field {A : Type} (k : string) (fs : list (string * A)) : option A :=
  match fs with
  | [] => None
  | (k', v) :: fs' => if String.eqb k k' then Some v else field k fs'
  end.

(** The rule engine's match: every field the pattern names is present in the
    event, and a leaf holds one of the accepted strings.  Fields of the event
    that the pattern does not name are ignored. *)
Fixpoint matches (p : Pattern) (e : Json) : bool :=
  match p with
  | PValues accepted =>
      match e with
      | JStr s => includes accepted s
      | JObj _ => false
      end
  | PObject pfields =>
      match e with
      | JStr _ => false
      | JObj efields =>
          forallb (fun kp : string * Pattern =>
                     match field (fst kp) efields with
                     | Some e' => matches (snd kp) e'
                     | None => false
                     end) pfields
      end
  end.

(** ** Constructs *)

Inductive Architecture := ARM_64 | X86_64.

Inductive Code :=
| fromAssetImage (directory : string)
| fromAsset (directory : string).

Record QueueProps := {
  queueName : string;
  visibilityTimeout : Duration.t
}.

Record FunctionProps := {
  code : Code;
  timeout : Duration.t;
  memorySize : option N;
  architecture : option Architecture;
  securityGroups : list string;
  environment : list (string * Token)
}.

(** [rds.Credentials]: the program only ever asks for a generated secret. *)
Inductive Credentials :=
| fromGeneratedSecret (username : string).

(** What a grant call allows. *)
Inductive Permission :=
| GrantConnect         (* rdsInstance.grantConnect *)
| GrantRead            (* bucket.grantRead, secret.grantRead *)
| GrantWrite           (* bucket.grantWrite *)
| GrantSendMessages.   (* queue.grantSendMessages *)

(** One declaration of the construct tree, in the order the program makes
    them.  Constructs are named by their path, [stack/id]. *)
Inductive Decl : Type :=
| DResource (kind : string) (path : string)
| DBucket (path : string) (name : option Token)
| DBucketDeployment (path : string) (source : string) (destinationBucket : string)
| DIngress (group : string) (peer : string) (tcpPort : N)
| DQueue (path : string) (props : QueueProps)
| DFunction (path : string) (props : FunctionProps)
| DRule (path : string) (eventPattern : Pattern)
| DTarget (rule : string) (fn : string)
| DEventSource (queue : string) (fn : string)
| DNotification (bucket : string) (fn : string)
| DGrant (what : Permission) (resource : string) (grantee : string)
| DManagedPolicy (grantee : string) (policy : string)
| DInlinePolicy (grantee : string) (actions : list string) (resources : list Token)
| DPolicy (path : string) (statements : list (list string * list Token))
| DAttachInlinePolicy (grantee : string) (policy : string)
| DDatabase (path : string) (credentials : Credentials)
| DUserPoolClient (path : string) (callbackUrls : list Token)
| DContainer (path : string) (env : list (string * Token)).

(** ** The synthesis monad: a state of declarations, and exceptions *)

Inductive Result (A : Type) : Type :=
| Ok (a : A)
| Throw (message : string).
Arguments Ok {A} a.
Arguments Throw {A} message.

Definition Synth (A : Type) : Type := list Decl -> Result (A * list Decl).

Definition ret {A} (a : A) : Synth A := fun s => Ok (a, s).

Definition bind {A B} (c : Synth A) (k : A -> Synth B) : Synth B :=
  fun s => match c s with
           | Ok (a, s') => k a s'
           | Throw m => Throw m
           end.

Definition throw {A} (message : string) : Synth A := fun _ => Throw message.

Definition declare (d : Decl) : Synth unit := fun s => Ok (tt, s ++ [d]).

Notation "x <- c ;; k" := (bind c (fun x => k))
  (at level 61, c at next level, right associativity).
Notation "c ;; k" := (bind c (fun _ => k))
  (at level 61, right associativity).

Definition child (scope id : string) : string := scope ++ "/" ++ id.

(** [new K(scope, id, ...)] for a construct whose properties no claim reads. *)
Definition resource (kind scope id : string) : Synth string :=
  declare (DResource kind (child scope id)) ;; ret (child scope id).

Definition newBucket (scope id : string) (name : option Token) : Synth string :=
  declare (DBucket (child scope id) name) ;; ret (child scope id).

Definition newQueue (scope id : string) (props : QueueProps) : Synth string :=
  declare (DQueue (child scope id) props) ;; ret (child scope id).

Definition newFunction (scope id : string) (props : FunctionProps) : Synth string :=
  declare (DFunction (child scope id) props) ;; ret (child scope id).

Definition newRule (scope id : string) (p : Pattern) : Synth string :=
  declare (DRule (child scope id) p) ;; ret (child scope id).

(** [new iam.Policy(scope, id, { statements })] *)
Definition newPolicy (scope id : string) (statements : list (list string * list Token))
  : Synth string :=
  declare (DPolicy (child scope id) statements) ;; ret (child scope id).

(** Attributes read off a construct. *)
Definition queueUrl (q : string) : Token := Attr q "queueUrl".
Definition bucketName (b : string) : Token := Attr b "bucketName".
Definition secretName (s : string) : Token := Attr s "secretName".
Definition loadBalancerDnsName (lb : string) : Token := Attr lb "loadBalancerDnsName".
Definition userPoolId (p : string) : Token := Attr p "userPoolId".
Definition userPoolClientId (c : string) : Token := Attr c "userPoolClientId".
Definition instanceIdentifier (db : string) : Token := Attr db "instanceIdentifier".
Definition account (stack : string) : Token := Attr stack "account".
Definition region (stack : string) : Token := Attr stack "region".

(** A database instance in hand: its path and the secret it owns, if any
    ([secret] is [ISecret | undefined]). *)
Record DatabaseInstance := {
  dbPath : string;
  secret : option string
}.

Definition secretArn (s : string) : Token := Attr s "secretArn".

Definition newDatabaseInstance (scope id : string) (c : Credentials)
  : Synth DatabaseInstance :=
  declare (DDatabase (child scope id) c) ;;
  ret {| dbPath := child scope id;
         secret := match c with
                   | fromGeneratedSecret _ => Some (child (child scope id) "Secret")
                   end |}.

(** [a || b] where [a] may be [undefined] or a string of the program; an
    unresolved attribute is a non-empty string. *)
Definition token_or (a : option Token) (b : Token) : Token :=
  match a with
  | Some (Lit s) => if String.eqb s "" then b else Lit s
  | Some t => t
  | None => b
  end.

(** The name of a top-level stack is its construct id. *)
Definition stackName (stack : string) : string := stack.

(** [dockerPlatform == "arm" ? ARM_64 : X86_64] *)
Definition architectureOf (dockerPlatform : option string) : Architecture :=
  match dockerPlatform with
  | Some p => if String.eqb p "arm" then ARM_64 else X86_64
  | None => X86_64
  end.

(** ** lib/base-infra-stack.ts *)

Record BaseInfraStackT := {
  vpc : string;
  lambdaSG : string;
  ecsTaskSecGroup : string;
  knowledgeBaseBucket : string;
  processedBucket : string;
  rdsDdlTriggerQueue : string;
  pgvectorQueue : string;
  pgvectorCollectionName : Token;
  apiKeySecret : string;
  appTargetGroup : string;
  ec2SecGroup : string
}.

(** The double quote, for the messages that hold one. *)
Definition dquote : string := String (ascii_of_nat 34) "".

Definition please_specify (variable : string) : string :=
  "Please specify the " ++ dquote ++ variable ++ dquote ++ " env var".

Definition validRegions : list string := ["us-east-1"; "us-west-2"; "eu-west-2"].

Definition eventBridgeCreateDBPattern : Pattern :=
  PObject [("source", PValues ["aws.rds"]);
           ("detail", PObject [("eventSource", PValues ["rds.amazonaws.com"]);
                               ("eventName", PValues ["CreateDBInstance"])])].

Definition appClientCreatePattern : Pattern :=
  PObject [("source", PValues ["aws.cognito-idp"]);
           ("detail", PObject [("eventSource", PValues ["cognito-idp.amazonaws.com"]);
                               ("eventName", PValues ["CreateUserPoolClient"]);
                               ("sourceIPAddress", PValues ["cloudformation.amazonaws.com"])])].

Definition appClientUpdatePattern : Pattern :=
  PObject [("source", PValues ["aws.cognito-idp"]);
           ("detail", PObject [("eventSource", PValues ["cognito-idp.amazonaws.com"]);
                               ("eventName", PValues ["UpdateUserPoolClient"]);
                               ("sourceIPAddress", PValues ["cloudformation.amazonaws.com"])])].

(** The callback URL the program writes for a load-balancer host name:
    [`https://${host}/oauth2/idpresponse`]. *)
Definition callbackUrl (host : Token) : Token :=
  Template [Lit "https://"; host; Lit "/oauth2/idpresponse"].

(** The constructor of [BaseInfraStack]. *)
Definition BaseInfraStack (env : ProcessEnv) (this : string) : Synth BaseInfraStackT :=
  let regionPrefix := or_else (env "CDK_DEFAULT_REGION") "us-east-1" in
  if negb (includes validRegions regionPrefix)
  then throw "Unsupported CDK_DEFAULT_REGION specified"
  else
  _ <- resource "cloudtrail.Trail" this "myCloudTrail" ;;
  let pgvectorCollectionName :=
    Template [Lit "pgvector-collection-"; Lit regionPrefix; Lit "-"; account this] in
  vpc <- resource "ec2.Vpc" this "InfraNetwork" ;;
  docsBucket <- newBucket this "knowledgeBase" None ;;
  declare (DBucketDeployment (child this "knowledgeBaseBucketDeploy")
             "../knowledgebase" docsBucket) ;;
  processedTextBucket <- newBucket this "processedText" None ;;
  let dockerPlatform := env "DOCKER_CONTAINER_PLATFORM_ARCH" in
  lambdaFn <- newFunction this "pdfProcessorFn"
    {| code := fromAssetImage "../lambda/pdf-processor/";
       timeout := Duration.minutes 15;
       memorySize := Some 512%N;
       architecture := Some (architectureOf dockerPlatform);
       securityGroups := [];
       environment := [("SOURCE_BUCKET_NAME", bucketName docsBucket);
                       ("DESTINATION_BUCKET_NAME", bucketName processedTextBucket)] |} ;;
  declare (DGrant GrantRead docsBucket lambdaFn) ;;
  declare (DGrant GrantWrite processedTextBucket lambdaFn) ;;
  declare (DNotification docsBucket lambdaFn) ;;
  rdsDdlDetectionQueue <- newQueue this "rdsDdlDetectionQueue"
    {| queueName := "RDS_DDL_Detection_Queue";
       visibilityTimeout := Duration.minutes 6 |} ;;
  rdsDdlTriggerFn <- newFunction this "rdsDdlTriggerFn"
    {| code := fromAsset "../lambda/rds-ddl-trigger";
       timeout := Duration.minutes 2;
       memorySize := None;
       architecture := None;
       securityGroups := [];
       environment := [("RDS_DDL_QUEUE_URL", queueUrl rdsDdlDetectionQueue)] |} ;;
  declare (DGrant GrantSendMessages rdsDdlDetectionQueue rdsDdlTriggerFn) ;;
  eventBridgeCreateDBRule <- newRule this "eventBridgeCreateDBRule" eventBridgeCreateDBPattern ;;
  declare (DTarget eventBridgeCreateDBRule rdsDdlTriggerFn) ;;
  lambdaSecurityGroup <- resource "ec2.SecurityGroup" this "lambda-security-group" ;;
  ec2SecurityGroup <- resource "ec2.SecurityGroup" this "ec2-security-group" ;;
  openAiApiKey <- resource "secretsmanager.Secret" this "openAiApiKey" ;;
  pgVectorUpdateQueue <- newQueue this "pgVectorUpdateQueue"
    {| queueName := "PGVector_Update_Queue";
       visibilityTimeout := Duration.minutes 5 |} ;;
  pgvectorTriggerFn <- newFunction this "pgvectorTrigger"
    {| code := fromAsset "../lambda/pgvector-trigger";
       timeout := Duration.minutes 2;
       memorySize := None;
       architecture := None;
       securityGroups := [];
       environment := [("PGVECTOR_UPDATE_QUEUE", queueUrl pgVectorUpdateQueue);
                       ("BUCKET_NAME", bucketName processedTextBucket)] |} ;;
  declare (DNotification processedTextBucket pgvectorTriggerFn) ;;
  declare (DGrant GrantSendMessages pgVectorUpdateQueue pgvectorTriggerFn) ;;
  ragAppSecGroup <- resource "ec2.SecurityGroup" this "ragAppSecGroup" ;;
  albSecGroup <- resource "ec2.SecurityGroup" this "albSecGroup" ;;
  appLoadBalancer <- resource "elbv2.ApplicationLoadBalancer" this "ragAppLb" ;;
  match env "IAM_SELF_SIGNED_SERVER_CERT_NAME" with
  | None => throw (please_specify "IAM_SELF_SIGNED_SERVER_CERT_NAME")
  | Some certName =>
  if String.eqb certName ""
  then throw (please_specify "IAM_SELF_SIGNED_SERVER_CERT_NAME")
  else
  match env "COGNITO_DOMAIN_NAME" with
  | None => throw (please_specify "COGNITO_DOMAIN_NAME")
  | Some cognitoDomain =>
  if String.eqb cognitoDomain ""
  then throw (please_specify "COGNITO_DOMAIN_NAME")
  else
  ecsTargetGroup <- resource "elbv2.ApplicationTargetGroup" this "default" ;;
  appClientCreationQueue <- newQueue this "appClientCreateQueue"
    {| queueName := "COG_APP_CLIENT_CREATE_QUEUE";
       visibilityTimeout := Duration.minutes 5 |} ;;
  appClientCreateTriggerFn <- newFunction this "appClientCreateTrigger"
    {| code := fromAsset "../lambda/app-client-create-trigger";
       timeout := Duration.minutes 2;
       memorySize := None;
       architecture := None;
       securityGroups := [];
       environment := [("TRIGGER_QUEUE", queueUrl appClientCreationQueue)] |} ;;
  declare (DGrant GrantSendMessages appClientCreationQueue appClientCreateTriggerFn) ;;
  appClientCreateRule <- newRule this "appClientCreateRule" appClientCreatePattern ;;
  declare (DTarget appClientCreateRule appClientCreateTriggerFn) ;;
  userPool <- resource "cognito.UserPool" this "UserPool" ;;
  userPoolDomain <- resource "cognito.UserPoolDomain" this "upDomain" ;;
  declare (DUserPoolClient (child userPool "WebClient")
             [callbackUrl (loadBalancerDnsName appLoadBalancer)]) ;;
  let client := child userPool "WebClient" in
  _ <- resource "elbv2.ApplicationListener" appLoadBalancer "httpsListener" ;;
  callBackInitFn <- newFunction this "callBackInit"
    {| code := fromAsset "../lambda/call-back-url-init";
       timeout := Duration.minutes 2;
       memorySize := None;
       architecture := None;
       securityGroups := [];
       environment := [("USER_POOL_ID", userPoolId userPool);
                       ("APP_CLIENT_ID", userPoolClientId client);
                       ("ALB_DNS_NAME", loadBalancerDnsName appLoadBalancer);
                       ("SQS_QUEUE_URL", queueUrl appClientCreationQueue)] |} ;;
  declare (DManagedPolicy callBackInitFn "AmazonCognitoPowerUser") ;;
  declare (DEventSource appClientCreationQueue callBackInitFn) ;;
  callBackUpdateFn <- newFunction this "callBackUpdate"
    {| code := fromAsset "../lambda/call-back-url-update";
       timeout := Duration.minutes 2;
       memorySize := None;
       architecture := None;
       securityGroups := [];
       environment := [("USER_POOL_ID", userPoolId userPool);
                       ("APP_CLIENT_ID", userPoolClientId client);
                       ("ALB_DNS_NAME", loadBalancerDnsName appLoadBalancer)] |} ;;
  declare (DManagedPolicy callBackUpdateFn "AmazonCognitoPowerUser") ;;
  appClientUpdateRule <- newRule this "appClientUpdateRule" appClientUpdatePattern ;;
  declare (DTarget appClientUpdateRule callBackUpdateFn) ;;
  ret {| vpc := vpc;
         lambdaSG := lambdaSecurityGroup;
         ecsTaskSecGroup := ragAppSecGroup;
         knowledgeBaseBucket := docsBucket;
         processedBucket := processedTextBucket;
         rdsDdlTriggerQueue := rdsDdlDetectionQueue;
         pgvectorQueue := pgVectorUpdateQueue;
         pgvectorCollectionName := pgvectorCollectionName;
         apiKeySecret := openAiApiKey;
         appTargetGroup := ecsTargetGroup;
         ec2SecGroup := ec2SecurityGroup |}
  end end.

(** ** lib/rds-stack.ts *)

Record RDSStackProps := {
  rds_vpc : string;
  sgLambda : string;
  sgEc2 : string;
  ecsSecGroup : string
}.

Record RDSStackT := {
  rdsDBName : string;
  dbInstance : DatabaseInstance
}.

Definition RDSStack (this : string) (props : RDSStackProps) : Synth RDSStackT :=
  let dbName := "postgres" in
  let rdsSecGroupName := "rds-security-group" in
  rdsSecurityGroup <- resource "ec2.SecurityGroup" this rdsSecGroupName ;;
  declare (DIngress rdsSecurityGroup (sgLambda props) 5432) ;;
  declare (DIngress rdsSecurityGroup (sgEc2 props) 5432) ;;
  declare (DIngress rdsSecurityGroup (ecsSecGroup props) 5432) ;;
  rdsInstance <- newDatabaseInstance this "rdsInstance" (fromGeneratedSecret "postgres") ;;
  ret {| rdsDBName := dbName; dbInstance := rdsInstance |}.

(** ** lib/ddl-source-rds-stack.ts *)

Record DDLSourceRDSStackProps := {
  ddlsrc_rdsInstance : DatabaseInstance
}.

Record DDLSourceRDSStackT := {
  sourceS3Bucket : string
}.

Definition DDLSourceRDSStack (this : string) (props : DDLSourceRDSStackProps)
  : Synth DDLSourceRDSStackT :=
  ddlSourceBucket <- newBucket this "ddlSourceBucket"
    (Some (Template [Lit "ddl-source-";
                     instanceIdentifier (dbPath (ddlsrc_rdsInstance props))])) ;;
  declare (DBucketDeployment (child this "deployDDLSourceRDS")
             "../scripts/rds-ddl-sql" ddlSourceBucket) ;;
  ret {| sourceS3Bucket := ddlSourceBucket |}.

(** ** lib/rds-ddl-automation-stack.ts *)

Record RdsDdlAutomationStackProps := {
  ddlTriggerQueue : string;
  ddl_rdsInstance : DatabaseInstance;
  dbName : string;
  ddlSourceS3Bucket : string;
  ddl_vpc : string;
  ddl_lambdaSG : string;
  ddlSourceStackName : string
}.

Definition cfnChangesetPattern (ddlSourceStackName : string) : Pattern :=
  PObject [("source", PValues ["aws.cloudformation"]);
           ("detail", PObject [("eventSource", PValues ["cloudformation.amazonaws.com"]);
                               ("eventName", PValues ["ExecuteChangeSet"]);
                               ("requestParameters",
                                PObject [("stackName", PValues [ddlSourceStackName])])])].

Definition RdsDdlAutomationStack (env : ProcessEnv) (this : string)
  (props : RdsDdlAutomationStackProps) : Synth unit :=
  let ddlTriggerQueue := ddlTriggerQueue props in
  let rdsInstance := ddl_rdsInstance props in
  let dbName := dbName props in
  let sourceS3Bucket := ddlSourceS3Bucket props in
  let ddlSourceStackName := ddlSourceStackName props in
  let dockerPlatform := env "DOCKER_CONTAINER_PLATFORM_ARCH" in
  ddlInitDeployFn <- newFunction this "ddlDeployFn"
    {| code := fromAssetImage "../lambda/rds-ddl-init/";
       timeout := Duration.minutes 3;
       memorySize := None;
       architecture := Some (architectureOf dockerPlatform);
       securityGroups := [ddl_lambdaSG props];
       environment := [("DB_NAME", Lit dbName);
                       ("SQS_QUEUE_URL", queueUrl ddlTriggerQueue);
                       ("DDL_SOURCE_BUCKET", bucketName sourceS3Bucket)] |} ;;
  declare (DGrant GrantConnect (dbPath rdsInstance) ddlInitDeployFn) ;;
  declare (DEventSource ddlTriggerQueue ddlInitDeployFn) ;;
  declare (DGrant GrantRead sourceS3Bucket ddlInitDeployFn) ;;
  declare (DManagedPolicy ddlInitDeployFn "SecretsManagerReadWrite") ;;
  ddlChangeFn <- newFunction this "ddlChangeFn"
    {| code := fromAssetImage "../lambda/rds-ddl-change/";
       timeout := Duration.minutes 10;
       memorySize := None;
       architecture := Some (architectureOf dockerPlatform);
       securityGroups := [ddl_lambdaSG props];
       environment := [("DB_NAME", Lit dbName);
                       ("SQS_QUEUE_URL", queueUrl ddlTriggerQueue);
                       ("DDL_SOURCE_BUCKET", bucketName sourceS3Bucket)] |} ;;
  declare (DGrant GrantRead sourceS3Bucket ddlChangeFn) ;;
  declare (DManagedPolicy ddlChangeFn "SecretsManagerReadWrite") ;;
  declare (DGrant GrantConnect (dbPath rdsInstance) ddlInitDeployFn) ;;
  declare (DManagedPolicy ddlChangeFn "AmazonRDSReadOnlyAccess") ;;
  cfnChangesetRule <- newRule this "cfnChangesetRule" (cfnChangesetPattern ddlSourceStackName) ;;
  declare (DTarget cfnChangesetRule ddlChangeFn).

(** ** lib/pgvector-update-stack.ts *)

Record PGVectorUpdateStackProps := {
  pgv_vpc : string;
  pgv_processedBucket : string;
  pgv_collectionName : Token;
  pgv_apiKeySecret : string;
  pgv_databaseCreds : Token;
  triggerQueue : string;
  pgv_dbInstance : DatabaseInstance;
  pgv_lambdaSG : string
}.

Definition secretActions : list string :=
  ["secretsmanager:GetResourcePolicy";
   "secretsmanager:GetSecretValue";
   "secretsmanager:DescribeSecret";
   "secretsmanager:ListSecretVersionIds"].

Definition PGVectorUpdateStack (env : ProcessEnv) (this : string)
  (props : PGVectorUpdateStackProps) : Synth unit :=
  let dockerPlatform := env "DOCKER_CONTAINER_PLATFORM_ARCH" in
  pgvectorUpdateFn <- newFunction this "pgvectorUpdate"
    {| code := fromAssetImage "../lambda/pgvector-update/";
       timeout := Duration.minutes 3;
       memorySize := Some 512%N;
       architecture := Some (architectureOf dockerPlatform);
       securityGroups := [pgv_lambdaSG props];
       environment := [("API_KEY_SECRET_NAME", secretName (pgv_apiKeySecret props));
                       ("DB_CREDS", pgv_databaseCreds props);
                       ("COLLECTION_NAME", pgv_collectionName props);
                       ("QUEUE_URL", queueUrl (triggerQueue props));
                       ("NLTK_DATA", Lit "/tmp")] |} ;;
  declare (DGrant GrantRead (pgv_processedBucket props) pgvectorUpdateFn) ;;
  declare (DGrant GrantRead (pgv_apiKeySecret props) pgvectorUpdateFn) ;;
  declare (DGrant GrantConnect (dbPath (pgv_dbInstance props)) pgvectorUpdateFn) ;;
  declare (DEventSource (triggerQueue props) pgvectorUpdateFn) ;;
  let smPolicyStatementDBCreds := (secretActions, [pgv_databaseCreds props]) in
  smPolicyDBCreds <- newPolicy this "dbCredsSecretsManagerPolicy"
    [smPolicyStatementDBCreds] ;;
  declare (DAttachInlinePolicy pgvectorUpdateFn smPolicyDBCreds).

(** ** lib/test-compute-stack.ts *)

Record TestComputeStackProps := {
  tc_vpc : string;
  ec2SG : string
}.

Definition TestComputeStack (this : string) (props : TestComputeStackProps) : Synth unit :=
  jumpHostRole <- resource "iam.Role" this "jumpHostRole" ;;
  declare (DManagedPolicy jumpHostRole "AmazonSSMManagedInstanceCore") ;;
  declare (DManagedPolicy jumpHostRole "AmazonS3FullAccess") ;;
  declare (DManagedPolicy jumpHostRole "AdministratorAccess") ;;
  _ <- resource "iam.CfnInstanceProfile" this "jumpHostInstanceProf" ;;
  _ <- resource "ec2.Instance" this "ec2JumpHost" ;;
  ret tt.

(** ** lib/rag-app-stack.ts *)

Record RagAppStackProps := {
  rag_vpc : string;
  rag_databaseCreds : Token;
  rag_collectionName : Token;
  rag_apiKeySecret : string;
  rag_dbInstance : DatabaseInstance;
  taskSecGroup : string;
  elbTargetGroup : string
}.

Definition RagAppStack (env : ProcessEnv) (this : string) (props : RagAppStackProps)
  : Synth unit :=
  cluster <- resource "ecs.Cluster" this "ecsClusterRAG" ;;
  ragTaskRole <- resource "iam.Role" this "RagTaskRole" ;;
  declare (DInlinePolicy ragTaskRole secretActions [rag_databaseCreds props]) ;;
  declare (DInlinePolicy ragTaskRole ["bedrock:InvokeModel"] [Lit "*"]) ;;
  declare (DGrant GrantRead (rag_apiKeySecret props) ragTaskRole) ;;
  declare (DGrant GrantConnect (dbPath (rag_dbInstance props)) ragTaskRole) ;;
  taskExecRole <- resource "iam.Role" this "TaskExecRole" ;;
  declare (DManagedPolicy taskExecRole "service-role/AmazonECSTaskExecutionRolePolicy") ;;
  taskLogGroup <- resource "logs.LogGroup" this "TaskLogGroup" ;;
  ragTaskDef <- resource "ecs.FargateTaskDefinition" this "RagTaskDef" ;;
  declare (DContainer (child ragTaskDef "rag-container")
             [("AWS_REGION", Template [region this]);
              ("DB_CREDS", rag_databaseCreds props);
              ("COLLECTION_NAME", rag_collectionName props);
              ("API_KEY_SECRET_NAME", secretName (rag_apiKeySecret props))]) ;;
  ragAppService <- resource "ecs.FargateService" this "rag-app-service" ;;
  ret tt.

(** ** bin/rag-with-amazon-bedrock-and-rds-pgvector.ts *)

Definition cdkApp (env : ProcessEnv) : Synth unit :=
  baseInfra <- BaseInfraStack env "BaseInfraStack" ;;
  rds <- RDSStack "rdsStack"
    {| rds_vpc := vpc baseInfra;
       sgLambda := lambdaSG baseInfra;
       sgEc2 := ec2SecGroup baseInfra;
       ecsSecGroup := ecsTaskSecGroup baseInfra |} ;;
  ddlSource <- DDLSourceRDSStack "ddlSourceStack"
    {| ddlsrc_rdsInstance := dbInstance rds |} ;;
  RdsDdlAutomationStack env "ddlAutomationStack"
    {| ddl_vpc := vpc baseInfra;
       ddlTriggerQueue := rdsDdlTriggerQueue baseInfra;
       dbName := rdsDBName rds;
       ddlSourceS3Bucket := sourceS3Bucket ddlSource;
       ddl_rdsInstance := dbInstance rds;
       ddl_lambdaSG := lambdaSG baseInfra;
       ddlSourceStackName := stackName "ddlSourceStack" |} ;;
  PGVectorUpdateStack env "PGVectorUpdateStack"
    {| pgv_vpc := vpc baseInfra;
       pgv_processedBucket := processedBucket baseInfra;
       pgv_collectionName := pgvectorCollectionName baseInfra;
       pgv_apiKeySecret := apiKeySecret baseInfra;
       pgv_databaseCreds :=
         token_or (option_map secretArn (secret (dbInstance rds))) (Lit "");
       triggerQueue := pgvectorQueue baseInfra;
       pgv_dbInstance := dbInstance rds;
       pgv_lambdaSG := lambdaSG baseInfra |} ;;
  TestComputeStack "TestComputeStack"
    {| tc_vpc := vpc baseInfra;
       ec2SG := ec2SecGroup baseInfra |} ;;
  RagAppStack env "RagStack"
    {| rag_vpc := vpc baseInfra;
       rag_databaseCreds :=
         token_or (option_map secretArn (secret (dbInstance rds))) (Lit "");
       rag_collectionName := pgvectorCollectionName baseInfra;
       rag_apiKeySecret := apiKeySecret baseInfra;
       rag_dbInstance := dbInstance rds;
       taskSecGroup := ecsTaskSecGroup baseInfra;
       elbTargetGroup := appTargetGroup baseInfra |}.

(** The declarations the program leaves behind, or the error it throws. *)
Definition synth (env : ProcessEnv) : Result (list Decl) :=
  match cdkApp env [] with
  | Ok (_, decls) => Ok decls
  | Throw m => Throw m
  end.

(** An environment with the three variables the deployment guide sets. *)
Definition sampleEnv : ProcessEnv := fun v =>
  if String.eqb v "CDK_DEFAULT_REGION" then Some "us-west-2"
  else if String.eqb v "IAM_SELF_SIGNED_SERVER_CERT_NAME" then Some "ragcert"
  else if String.eqb v "COGNITO_DOMAIN_NAME" then Some "ragdemo"
  else None.

(** ** Reading the declarations *)

Fixpoint functionProps (decls : list Decl) (fn : string) : option FunctionProps :=
  match decls with
  | [] => None
  | DFunction path props :: rest =>
      if String.eqb path fn then Some props else functionProps rest fn
  | _ :: rest => functionProps rest fn
  end.

Fixpoint queueProps (decls : list Decl) (q : string) : option QueueProps :=
  match decls with
  | [] => None
  | DQueue path props :: rest =>
      if String.eqb path q then Some props else queueProps rest q
  | _ :: rest => queueProps rest q
  end.

Fixpoint rulePattern (decls : list Decl) (rule : string) : option Pattern :=
  match decls with
  | [] => None
  | DRule path p :: rest =>
      if String.eqb path rule then Some p else rulePattern rest rule
  | _ :: rest => rulePattern rest rule
  end.

Fixpoint containerEnv (decls : list Decl) (c : string) : option (list (string * Token)) :=
  match decls with
  | [] => None
  | DContainer path env :: rest =>
      if String.eqb path c then Some env else containerEnv rest c
  | _ :: rest => containerEnv rest c
  end.

(** The functions an SQS event source feeds from queue [q]. *)
Definition consumersOf (decls : list Decl) (q : string) : list string :=
  flat_map (fun d => match d with
                     | DEventSource q' fn => if String.eqb q' q then [fn] else []
                     | _ => []
                     end) decls.

(** The grantees of the program's grant calls for [what] on [resource], one
    per call. *)
Definition granteesOf (decls : list Decl) (what : Permission) (resource : string)
  : list string :=
  flat_map (fun d => match d with
                     | DGrant w r g =>
                         match w, what with
                         | GrantConnect, GrantConnect | GrantRead, GrantRead
                         | GrantWrite, GrantWrite
                         | GrantSendMessages, GrantSendMessages =>
                             if String.eqb r resource then [g] else []
                         | _, _ => []
                         end
                     | _ => []
                     end) decls.

Definition granted (decls : list Decl) (what : Permission) (resource grantee : string)
  : bool :=
  includes (granteesOf decls what resource) grantee.

(** The managed policies the program attaches to [grantee] (with
    [addManagedPolicy] or the [managedPolicies] of a role), one per call. *)
Definition managedPoliciesOf (decls : list Decl) (grantee : string) : list string :=
  flat_map (fun d => match d with
                     | DManagedPolicy g policy => if String.eqb g grantee then [policy] else []
                     | _ => []
                     end) decls.

Definition databaseCredentials (decls : list Decl) : list Credentials :=
  flat_map (fun d => match d with
                     | DDatabase _ c => [c]
                     | _ => []
                     end) decls.

(** ** What invokes a function *)

Inductive Trigger :=
| ByQueue (queue : string)      (* an SQS event source: one message received *)
| ByRule (rule : string)        (* an EventBridge rule target: one matching event *)
| ByBucket (bucket : string).   (* an S3 notification: one object created *)

Definition triggersOf (decls : list Decl) (fn : string) : list Trigger :=
  flat_map (fun d => match d with
                     | DEventSource q f => if String.eqb f fn then [ByQueue q] else []
                     | DTarget r f => if String.eqb f fn then [ByRule r] else []
                     | DNotification b f => if String.eqb f fn then [ByBucket b] else []
                     | _ => []
                     end) decls.

(** The functions the event bus invokes on event [e]: the targets of the
    rules whose pattern matches [e], with no queue in between. *)
Definition invokedByEvent (decls : list Decl) (e : Json) : list string :=
  flat_map (fun d => match d with
                     | DTarget r fn =>
                         match rulePattern decls r with
                         | Some p => if matches p e then [fn] else []
                         | None => []
                         end
                     | _ => []
                     end) decls.

(** The string at a path of an event. *)
Fixpoint attribute (e : Json) (path : list string) : option string :=
  match path with
  | [] => match e with
          | JStr s => Some s
          | JObj _ => None
          end
  | k :: path' =>
      match e with
      | JStr _ => None
      | JObj fields =>
          match field k fields with
          | Some e' => attribute e' path'
          | None => None
          end
      end
  end.

(** The constructs the claims name. *)
Definition rdsDdlDetectionQueue : string := "BaseInfraStack/rdsDdlDetectionQueue".
Definition rdsDdlTriggerFn : string := "BaseInfraStack/rdsDdlTriggerFn".
Definition eventBridgeCreateDBRule : string := "BaseInfraStack/eventBridgeCreateDBRule".
Definition ddlInitDeployFn : string := "ddlAutomationStack/ddlDeployFn".
Definition ddlChangeFn : string := "ddlAutomationStack/ddlChangeFn".
Definition cfnChangesetRule : string := "ddlAutomationStack/cfnChangesetRule".
Definition rdsInstance : string := "rdsStack/rdsInstance".
Definition ddlSourceBucket : string := "ddlSourceStack/ddlSourceBucket".
Definition pgvectorUpdateFn : string := "PGVectorUpdateStack/pgvectorUpdate".
Definition ragContainer : string := "RagStack/RagTaskDef/rag-container".

(** The DDL workers: the init-path and the change-path function. *)
Definition ddlWorkers : list string := [ddlInitDeployFn; ddlChangeFn].

(** ** Names and properties the theorems speak of *)

(** The region the base stack settles on. *)
Definition regionPrefixOf (env : ProcessEnv) : string :=
  or_else (env "CDK_DEFAULT_REGION") "us-east-1".

(** The variable is set, and not to the empty string. *)
Definition specified (env : ProcessEnv) (variable : string) : Prop :=
  exists value, env variable = Some value /\ value <> "".

(** A variable that is [undefined] or the empty string. *)
Definition unspecified (env : ProcessEnv) (variable : string) : Prop :=
  env variable = None \/ env variable = Some "".

Definition appClientCreateTriggerFn : string := "BaseInfraStack/appClientCreateTrigger".
Definition callBackUpdateFn : string := "BaseInfraStack/callBackUpdate".

Definition callBackInitFn : string := "BaseInfraStack/callBackInit".
Definition appLoadBalancer : string := "BaseInfraStack/ragAppLb".

(** The environment the program gives to both DDL workers. *)
Definition ddlWorkerEnvironment : list (string * Token) :=
  [("DB_NAME", Lit "postgres");
   ("SQS_QUEUE_URL", queueUrl rdsDdlDetectionQueue);
   ("DDL_SOURCE_BUCKET", bucketName ddlSourceBucket)].

(** The claim as the specification words it: the visibility window of the
    DDL trigger queue covers the timeout of every DDL worker. *)
Definition visibility_covers (decls : list Decl) (q : string) (workers : list string)
  : Prop :=
  forall w p qp,
    In w workers ->
    functionProps decls w = Some p ->
    queueProps decls q = Some qp ->
    (timeout p <= visibilityTimeout qp)%N.

(** The claim as the specification words it: a worker is invoked by messages
    of queue [q] and by nothing else. *)
Definition only_by_queue (decls : list Decl) (q : string) (workers : list string)
  : Prop :=
  forall w, In w workers ->
    (forall tr, In tr (triggersOf decls w) -> tr = ByQueue q)
    /\ (forall e, ~ In w (invokedByEvent decls e)).

(** An ExecuteChangeSet call on the DDL source stack, as the trail records
    it. *)
Definition executeChangeSetEvent : Json :=
  JObj [("source", JStr "aws.cloudformation");
        ("detail-type", JStr "AWS API Call via CloudTrail");
        ("detail",
         JObj [("eventSource", JStr "cloudformation.amazonaws.com");
               ("eventName", JStr "ExecuteChangeSet");
               ("requestParameters",
                JObj [("stackName", JStr "ddlSourceStack");
                      ("changeSetName", JStr "cdk-deploy-change-set")])])].

(** A CreateDBInstance call, as the trail records it. *)
Definition createDBInstanceEvent : Json :=
  JObj [("source", JStr "aws.rds");
        ("detail",
         JObj [("eventSource", JStr "rds.amazonaws.com");
               ("eventName", JStr "CreateDBInstance");
               ("requestParameters",
                JObj [("dBInstanceIdentifier", JStr "rdsinstance")])])].

(** ** The change detector at run time *)

Section ChangeDetector.

(** The body of a trigger message, which the specification leaves opaque. *)
Variable Message : Type.
Variable triggerMessage : Json -> Message.

(** One attempt to send a message to a queue. *)
Definition SendAttempt : Type := Token * Message.

(** Modelled from the spec: the handler of the function rdsDdlTriggerFn
    (lambda/rds-ddl-trigger/app.py), of which the program only declares
    the asset directory, the environment and the right to send.  On each
    invocation it makes exactly one attempt to send a trigger message to
    the queue its environment names, and keeps no state between
    invocations. *)
Definition rdsDdlTriggerHandler (environment : list (string * Token)) (event : Json)
  : list SendAttempt :=
  match field "RDS_DDL_QUEUE_URL" environment with
  | Some url => [(url, triggerMessage event)]
  | None => []
  end.

(** What the change detector sends on one lifecycle event: the event bus
    invokes the targets of the matching rules, and each invocation of
    rdsDdlTriggerFn runs the handler with the declared environment. *)
Definition detectorSends (decls : list Decl) (e : Json) : list SendAttempt :=
  flat_map (fun fn =>
              if String.eqb fn rdsDdlTriggerFn
              then match functionProps decls fn with
                   | Some p => rdsDdlTriggerHandler (environment p) e
                   | None => []
                   end
              else [])
           (invokedByEvent decls e).

(** The detector over a stream of events, one after the other. *)
Definition detectorSendsAll (decls : list Decl) (events : list Json)
  : list SendAttempt :=
  flat_map (detectorSends decls) events.

End ChangeDetector.

(** ** The callback-URL patch at run time *)

(** The deployment resolves the attributes the program leaves open. *)
Definition Resolution := string -> string -> string.

Fixpoint render (resolve : Resolution) (t : Token) : string :=
  match t with
  | Lit s => s
  | Attr construct attribute => resolve construct attribute
  | Template parts =>
      (fix renderAll (ts : list Token) : string :=
         match ts with
         | [] => ""
         | t' :: ts' => (render resolve t' ++ renderAll ts')%string
         end) parts
  end.

Definition isUpper (c : ascii) : bool :=
  ((65 <=? nat_of_ascii c)%nat && (nat_of_ascii c <=? 90)%nat)%bool.

Definition lowerAscii (c : ascii) : ascii :=
  if isUpper c then ascii_of_nat (nat_of_ascii c + 32) else c.

(** The lower-cased form of a host name (host names are ASCII). *)
Fixpoint lower (s : string) : string :=
  match s with
  | EmptyString => EmptyString
  | String c s' => String (lowerAscii c) (lower s')
  end.

Fixpoint noUpper (s : string) : bool :=
  match s with
  | EmptyString => true
  | String c s' => negb (isUpper c) && noUpper s'
  end.

(** The application client of the user pool, as the identity provider stores
    it: the callback URLs are the part the patch touches. *)
Record UserPoolClient := {
  CallbackURLs : list string
}.

(** Modelled from the spec: the handler of the functions callBackInitFn and
    callBackUpdateFn (lambda/call-back-url-init/app.py and
    lambda/call-back-url-update/app.py), of which the program only declares
    the asset directories, the environments and the triggers.  It makes one
    update call that sets the callback URL of the client to the URL of the
    program's template, [callbackUrl], on the lower-cased host name that
    ALB_DNS_NAME holds. *)
Definition callBackHandler (resolve : Resolution) (environment : list (string * Token))
  (client : UserPoolClient) : UserPoolClient :=
  match field "ALB_DNS_NAME" environment with
  | Some host =>
      {| CallbackURLs := [render resolve (callbackUrl (Lit (lower (render resolve host))))] |}
  | None => client
  end.


(** The deployment of the scenario: the load balancer is given a host name
    with upper-case letters. *)
Definition scenarioResolution : Resolution := fun _ _ => "ABC123.elb.amazonaws.com".

(** An environment that asks for a region the program does not support. *)
Definition unsupportedEnv : ProcessEnv := fun v =>
  if String.eqb v "CDK_DEFAULT_REGION" then Some "eu-central-1" else sampleEnv v.

(** An environment with no variable set. *)
Definition emptyEnv : ProcessEnv := fun _ => None.

(** ** Further readings of the declarations *)

(** The functions and the queues the program declares, in order. *)
Definition functionsOf (decls : list Decl) : list (string * FunctionProps) :=
  flat_map (fun d => match d with
                     | DFunction path props => [(path, props)]
                     | _ => []
                     end) decls.

Definition queuesOf (decls : list Decl) : list (string * QueueProps) :=
  flat_map (fun d => match d with
                     | DQueue path props => [(path, props)]
                     | _ => []
                     end) decls.

(** The SQS event sources, as pairs of a queue and the function it feeds. *)
Definition eventSources (decls : list Decl) : list (string * string) :=
  flat_map (fun d => match d with
                     | DEventSource q fn => [(q, fn)]
                     | _ => []
                     end) decls.





(** The peers allowed into security group [group], with the TCP port. *)
Definition ingressOf (decls : list Decl) (group : string) : list (string * N) :=
  flat_map (fun d => match d with
                     | DIngress g peer port =>
                         if String.eqb g group then [(peer, port)] else []
                     | _ => []
                     end) decls.

(** The asset directories deployed into [bucket]. *)
Definition deploymentsTo (decls : list Decl) (bucket : string) : list (string * string) :=
  flat_map (fun d => match d with
                     | DBucketDeployment path source b =>
                         if String.eqb b bucket then [(path, source)] else []
                     | _ => []
                     end) decls.

Fixpoint bucketNameOf (decls : list Decl) (bucket : string) : option (option Token) :=
  match decls with
  | [] => None
  | DBucket path name :: rest =>
      if String.eqb path bucket then Some name else bucketNameOf rest bucket
  | _ :: rest => bucketNameOf rest bucket
  end.

(** The path a declaration creates, when it creates a construct. *)
Definition declares (d : Decl) : option string :=
  match d with
  | DResource _ path | DBucket path _ | DBucketDeployment path _ _
  | DQueue path _ | DFunction path _ | DRule path _
  | DDatabase path _ | DUserPoolClient path _ | DContainer path _
  | DPolicy path _ => Some path
  | DTarget _ _ | DEventSource _ _ | DNotification _ _ | DIngress _ _ _
  | DGrant _ _ _ | DManagedPolicy _ _ | DInlinePolicy _ _ _
  | DAttachInlinePolicy _ _ => None
  end.

Definition declaredPaths (decls : list Decl) : list string :=
  flat_map (fun d => match declares d with
                     | Some path => [path]
                     | None => []
                     end) decls.

Fixpoint distinct (l : list string) : bool :=
  match l with
  | [] => true
  | x :: rest => negb (includes rest x) && distinct rest
  end.

(** More constructs of the program, by path. *)
Definition pdfProcessorFn : string := "BaseInfraStack/pdfProcessorFn".
Definition pgvectorTriggerFn : string := "BaseInfraStack/pgvectorTrigger".
Definition knowledgeBaseBucketPath : string := "BaseInfraStack/knowledgeBase".
Definition processedTextBucket : string := "BaseInfraStack/processedText".
Definition pgVectorUpdateQueue : string := "BaseInfraStack/pgVectorUpdateQueue".
Definition appClientCreationQueue : string := "BaseInfraStack/appClientCreateQueue".
Definition lambdaSecurityGroup : string := "BaseInfraStack/lambda-security-group".
Definition ec2SecurityGroup : string := "BaseInfraStack/ec2-security-group".
Definition ragAppSecGroup : string := "BaseInfraStack/ragAppSecGroup".
Definition rdsSecurityGroup : string := "rdsStack/rds-security-group".
Definition ragTaskRole : string := "RagStack/RagTaskRole".
Definition jumpHostRole : string := "TestComputeStack/jumpHostRole".
Definition taskExecRole : string := "RagStack/TaskExecRole".

(** The filters of the two rules on the application client differ by the
    event name only. *)
Definition clientPattern (eventName : string) : Pattern :=
  PObject [("source", PValues ["aws.cognito-idp"]);
           ("detail", PObject [("eventSource", PValues ["cognito-idp.amazonaws.com"]);
                               ("eventName", PValues [eventName]);
                               ("sourceIPAddress", PValues ["cloudformation.amazonaws.com"])])].

(** An update of the application client made by a function of the program
    itself, as the trail records it. *)
Definition selfUpdateEvent : Json :=
  JObj [("source", JStr "aws.cognito-idp");
        ("detail",
         JObj [("eventSource", JStr "cognito-idp.amazonaws.com");
               ("eventName", JStr "UpdateUserPoolClient");
               ("sourceIPAddress", JStr "lambda.amazonaws.com")])].

Definition dockerPlatformOf (env : ProcessEnv) : option string :=
  env "DOCKER_CONTAINER_PLATFORM_ARCH".

(** The sub-pattern at a path of a pattern. *)
Fixpoint patternAt (p : Pattern) (path : list string) : option Pattern :=
  match path with
  | [] => Some p
  | k :: path' =>
      match p with
      | PValues _ => None
      | PObject fields =>
          match field k fields with
          | Some p' => patternAt p' path'
          | None => None
          end
      end
  end.

(** The value an event holds at [key], when the event is an object. *)
Definition member (e : Json) (key : string) : option Json :=
  match e with
  | JStr _ => None
  | JObj fields => field key fields
  end.

(** * Theorems *)

(** ** The program either throws in the base stack or declares everything *)

(** Runs the program symbolically: the three guards of the base stack are
    split, the throwing branches contradict [H], and [decls] is replaced by
    the list the program declares, in which the region and the architecture
    stay abstract. *)
Ltac run_synth H :=
  unfold synth, cdkApp, BaseInfraStack, RdsDdlAutomationStack,
    PGVectorUpdateStack, RagAppStack in H;
  cbv zeta in H;
  lazymatch type of H with
  | context [?env "CDK_DEFAULT_REGION"] =>
      change (or_else (env "CDK_DEFAULT_REGION") "us-east-1")
        with (regionPrefixOf env) in H;
      let Hregion := fresh "Hregion" in
      let Hcert := fresh "Hcert" in
      let Hcert' := fresh "Hcert" in
      let Hdom := fresh "Hdomain" in
      let Hdom' := fresh "Hdomain" in
      let certName := fresh "certName" in
      let cognitoDomain := fresh "cognitoDomain" in
      let arch := fresh "arch" in
      let Harch := fresh "Harch" in
      let rp := fresh "regionPrefix" in
      let Hrp := fresh "HregionPrefix" in
      remember (architectureOf (env "DOCKER_CONTAINER_PLATFORM_ARCH"))
        as arch eqn:Harch;
      destruct (includes validRegions (regionPrefixOf env)) eqn:Hregion;
      [ | discriminate H ];
      destruct (env "IAM_SELF_SIGNED_SERVER_CERT_NAME") as [certName|] eqn:Hcert;
      [ destruct (String.eqb certName "") eqn:Hcert'; [ discriminate H | ]
      | discriminate H ];
      destruct (env "COGNITO_DOMAIN_NAME") as [cognitoDomain|] eqn:Hdom;
      [ destruct (String.eqb cognitoDomain "") eqn:Hdom'; [ discriminate H | ]
      | discriminate H ];
      remember (regionPrefixOf env) as rp eqn:Hrp;
      vm_compute in H;
      injection H as H;
      lazymatch type of H with _ = ?d => subst d end
  end.

(** ** C4: the timeouts of the DDL workers *)

(** C4.  In every run of the program that does not throw, the init-path
    worker is declared with a timeout of exactly 3 minutes (180 seconds) and
    the change-path worker with a timeout of exactly 10 minutes (600
    seconds), the bound at which the function service ends an invocation. *)
Theorem ddl_worker_timeouts (env : ProcessEnv) (decls : list Decl) :
  synth env = Ok decls ->
  option_map timeout (functionProps decls ddlInitDeployFn) = Some (Duration.minutes 3)
  /\ option_map timeout (functionProps decls ddlChangeFn) = Some (Duration.minutes 10)
  /\ Duration.minutes 3 = Duration.seconds 180
  /\ Duration.minutes 10 = Duration.seconds 600.
Proof.
  intros H. run_synth H. repeat split.
Qed.

Lemma ddl_worker_timeouts_witness :
  exists decls,
    synth sampleEnv = Ok decls
    /\ option_map timeout (functionProps decls ddlInitDeployFn) = Some 180%N
    /\ option_map timeout (functionProps decls ddlChangeFn) = Some 600%N.
Proof.
  eexists. split; [ vm_compute; reflexivity | ].
  refine (let H := ddl_worker_timeouts sampleEnv _ _ in
          conj (proj1 H) (proj1 (proj2 H))).
  vm_compute. reflexivity.
Defined.

(** ** C1: the visibility window of the DDL trigger queue *)

(** C1, as stated, fails: the queue's window is 6 minutes and the change-path
    worker, which is handed the queue's URL, may run for 10. *)
Lemma visibility_does_not_cover_change_worker :
  exists decls,
    synth sampleEnv = Ok decls
    /\ option_map (fun p => field "SQS_QUEUE_URL" (environment p))
         (functionProps decls ddlChangeFn)
       = Some (Some (queueUrl rdsDdlDetectionQueue))
    /\ ~ visibility_covers decls rdsDdlDetectionQueue ddlWorkers.
Proof.
  eexists. split; [ vm_compute; reflexivity | ]. split; [ reflexivity | ].
  intros Hcov.
  specialize (Hcov ddlChangeFn _ _ (or_intror (or_introl eq_refl)) eq_refl eq_refl).
  vm_compute in Hcov. apply Hcov. reflexivity.
Qed.

(** C1, amended.  The visibility window of the DDL trigger queue is 6
    minutes.  It covers the timeout of every function that consumes from the
    queue through an event source; the only such function is the init-path
    worker (3 minutes).  The change-path worker (10 minutes) is not a
    consumer of the queue, and the window is shorter than its timeout. *)
Theorem visibility_covers_queue_consumers (env : ProcessEnv) (decls : list Decl) :
  synth env = Ok decls ->
  exists queue init change,
    queueProps decls rdsDdlDetectionQueue = Some queue
    /\ functionProps decls ddlInitDeployFn = Some init
    /\ functionProps decls ddlChangeFn = Some change
    /\ visibilityTimeout queue = Duration.minutes 6
    /\ consumersOf decls rdsDdlDetectionQueue = [ddlInitDeployFn]
    /\ visibility_covers decls rdsDdlDetectionQueue
         (consumersOf decls rdsDdlDetectionQueue)
    /\ (timeout init <= visibilityTimeout queue)%N
    /\ (visibilityTimeout queue < timeout change)%N.
Proof.
  intros H. run_synth H. do 3 eexists.
  do 3 (split; [ vm_compute; reflexivity | ]).
  split; [ reflexivity | ]. split; [ reflexivity | ].
  split; [ | split; [ discriminate | reflexivity ] ].
  intros w p qp Hw Hp Hq.
  vm_compute in Hw. destruct Hw as [<- | []].
  vm_compute in Hp, Hq.
  injection Hp as <-. injection Hq as <-.
  discriminate.
Qed.

Lemma visibility_covers_queue_consumers_witness :
  exists decls queue init,
    synth sampleEnv = Ok decls
    /\ queueProps decls rdsDdlDetectionQueue = Some queue
    /\ functionProps decls ddlInitDeployFn = Some init
    /\ (timeout init <= visibilityTimeout queue)%N.
Proof.
  eexists.
  refine (let H := visibility_covers_queue_consumers sampleEnv _ _ in
          match H with
          | ex_intro _ queue (ex_intro _ init (ex_intro _ change
              (conj Hq (conj Hi (conj _ (conj _ (conj _ (conj _ (conj Hle _))))))))) =>
              ex_intro _ queue (ex_intro _ init (conj _ (conj Hq (conj Hi Hle))))
          end).
  Unshelve. all: vm_compute; reflexivity.
Defined.

(** ** C8: the environment of the DDL workers and of the change detector *)

(** C8.  In every run that does not throw, the environment of each DDL
    worker holds exactly three variables: DB_NAME (the database name),
    SQS_QUEUE_URL (the URL of the DDL trigger queue) and DDL_SOURCE_BUCKET
    (the name of the DDL source bucket).  The environment of the change
    detector holds the URL of that same queue, to which the detector is
    granted the right to send. *)
Theorem ddl_environment (env : ProcessEnv) (decls : list Decl) :
  synth env = Ok decls ->
  (forall w, In w ddlWorkers ->
     exists p, functionProps decls w = Some p
               /\ environment p = ddlWorkerEnvironment
               /\ map fst (environment p)
                  = ["DB_NAME"; "SQS_QUEUE_URL"; "DDL_SOURCE_BUCKET"])
  /\ option_map environment (functionProps decls rdsDdlTriggerFn)
     = Some [("RDS_DDL_QUEUE_URL", queueUrl rdsDdlDetectionQueue)]
  /\ granted decls GrantSendMessages rdsDdlDetectionQueue rdsDdlTriggerFn = true
  /\ (exists qp, queueProps decls rdsDdlDetectionQueue = Some qp).
Proof.
  intros H. run_synth H. split; [ | split; [ reflexivity | split; [ reflexivity | ] ] ].
  - intros w [<- | [<- | []]]; eexists; (split; [ reflexivity | split; reflexivity ]).
  - eexists. reflexivity.
Qed.

Lemma ddl_environment_witness :
  exists decls,
    synth sampleEnv = Ok decls
    /\ forall w, In w ddlWorkers ->
         exists p, functionProps decls w = Some p
                   /\ environment p = ddlWorkerEnvironment
                   /\ map fst (environment p)
                      = ["DB_NAME"; "SQS_QUEUE_URL"; "DDL_SOURCE_BUCKET"].
Proof.
  eexists. split; [ vm_compute; reflexivity | ].
  refine (proj1 (ddl_environment sampleEnv _ _)).
  vm_compute. reflexivity.
Defined.

(** ** C10: the vector-store writer and reader share their configuration *)

(** C10.  In every run that does not throw, the pgvector-update function and
    the container of the RAG application hold the same COLLECTION_NAME and
    the same DB_CREDS: the collection name is the one the base stack builds
    from the region and the account, and the credentials are the ARN of the
    secret the database instance generates. *)
Theorem writer_reader_agree (env : ProcessEnv) (decls : list Decl) :
  synth env = Ok decls ->
  exists p c,
    functionProps decls pgvectorUpdateFn = Some p
    /\ containerEnv decls ragContainer = Some c
    /\ field "COLLECTION_NAME" (environment p) = field "COLLECTION_NAME" c
    /\ field "DB_CREDS" (environment p) = field "DB_CREDS" c
    /\ field "COLLECTION_NAME" c
       = Some (Template [Lit "pgvector-collection-"; Lit (regionPrefixOf env);
                         Lit "-"; account "BaseInfraStack"])
    /\ field "DB_CREDS" c = Some (secretArn (child rdsInstance "Secret")).
Proof.
  intros H. run_synth H. do 2 eexists.
  split; [ reflexivity | ]. split; [ reflexivity | ].
  repeat split.
Qed.

Lemma writer_reader_agree_witness :
  exists decls p c,
    synth sampleEnv = Ok decls
    /\ functionProps decls pgvectorUpdateFn = Some p
    /\ containerEnv decls ragContainer = Some c
    /\ field "COLLECTION_NAME" (environment p) = field "COLLECTION_NAME" c
    /\ field "DB_CREDS" (environment p) = field "DB_CREDS" c.
Proof.
  eexists.
  refine (let H := writer_reader_agree sampleEnv _ _ in
          match H with
          | ex_intro _ p (ex_intro _ c (conj Hp (conj Hc (conj Hn (conj Hd _))))) =>
              ex_intro _ p (ex_intro _ c (conj _ (conj Hp (conj Hc (conj Hn Hd)))))
          end).
  Unshelve. all: vm_compute; reflexivity.
Defined.

(** ** C7: credentials and grants of the DDL workers *)

(** C7, on the code.  In every run that does not throw: neither DDL worker
    is handed a password (their environments hold the three endpoints of
    [ddlWorkerEnvironment], and the only database credentials declared are a
    generated secret), and both are given the SecretsManagerReadWrite policy.
    The right to connect to the database, however, is granted twice to the
    init-path worker and never to the change-path worker: the second
    [grantConnect] call, made while the change-path worker is being set up,
    names the init-path worker again. *)
Theorem change_worker_lacks_connect (env : ProcessEnv) (decls : list Decl) :
  synth env = Ok decls ->
  databaseCredentials decls = [fromGeneratedSecret "postgres"]
  /\ option_map environment (functionProps decls ddlInitDeployFn)
     = Some ddlWorkerEnvironment
  /\ option_map environment (functionProps decls ddlChangeFn)
     = Some ddlWorkerEnvironment
  /\ includes (managedPoliciesOf decls ddlInitDeployFn) "SecretsManagerReadWrite" = true
  /\ includes (managedPoliciesOf decls ddlChangeFn) "SecretsManagerReadWrite" = true
  /\ granted decls GrantConnect rdsInstance ddlInitDeployFn = true
  /\ granted decls GrantConnect rdsInstance ddlChangeFn = false
  /\ filter (String.eqb ddlInitDeployFn) (granteesOf decls GrantConnect rdsInstance)
     = [ddlInitDeployFn; ddlInitDeployFn].
Proof.
  intros H. run_synth H. vm_compute. repeat split.
Qed.

Lemma change_worker_lacks_connect_witness :
  exists decls,
    synth sampleEnv = Ok decls
    /\ granted decls GrantConnect rdsInstance ddlInitDeployFn = true
    /\ granted decls GrantConnect rdsInstance ddlChangeFn = false.
Proof.
  eexists. split; [ vm_compute; reflexivity | ].
  refine (let H := change_worker_lacks_connect sampleEnv _ _ in
          conj (proj1 (proj2 (proj2 (proj2 (proj2 (proj2 H))))))
               (proj1 (proj2 (proj2 (proj2 (proj2 (proj2 (proj2 H)))))))).
  vm_compute. reflexivity.
Defined.

(** ** What the event bus invokes *)

(** The program declares four rules, each with one target. *)
Lemma synth_invokedByEvent (env : ProcessEnv) (decls : list Decl) (e : Json) :
  synth env = Ok decls ->
  invokedByEvent decls e
  = (if matches eventBridgeCreateDBPattern e then [rdsDdlTriggerFn] else [])
    ++ (if matches appClientCreatePattern e then [appClientCreateTriggerFn] else [])
    ++ (if matches appClientUpdatePattern e then [callBackUpdateFn] else [])
    ++ (if matches (cfnChangesetPattern "ddlSourceStack") e then [ddlChangeFn] else []).
Proof.
  intros H. run_synth H.
  cbv - [matches].
  repeat match goal with
         | |- context [matches ?p e] => destruct (matches p e)
         end; reflexivity.
Qed.

(** ** Patterns, read attribute by attribute *)

Lemma includes_singleton (v s : string) : includes [v] s = true <-> s = v.
Proof.
  unfold includes. cbn [existsb]. rewrite orb_false_r. apply String.eqb_eq.
Qed.

Lemma matches_leaf (v : string) (e : Json) :
  matches (PValues [v]) e = true <-> attribute e [] = Some v.
Proof.
  destruct e as [s | fs]; cbn [matches attribute].
  - rewrite includes_singleton. split; [ intros -> | intros [= ->] ]; reflexivity.
  - split; discriminate.
Qed.

Lemma matches_object_cons (k : string) (p : Pattern) (ps : list (string * Pattern))
  (fs : list (string * Json)) :
  matches (PObject ((k, p) :: ps)) (JObj fs)
  = match field k fs with
    | Some e' => matches p e'
    | None => false
    end && matches (PObject ps) (JObj fs).
Proof. reflexivity. Qed.

Lemma matches_object_string (ps : list (string * Pattern)) (s : string) :
  matches (PObject ps) (JStr s) = false.
Proof. reflexivity. Qed.

(** A pattern field holding one accepted string is the attribute being that
    string. *)
Lemma field_leaf (k v : string) (fs : list (string * Json)) :
  match field k fs with
  | Some e' => matches (PValues [v]) e'
  | None => false
  end = true
  <-> attribute (JObj fs) [k] = Some v.
Proof.
  cbn [attribute]. destruct (field k fs) as [e' | ].
  - apply matches_leaf.
  - split; discriminate.
Qed.

Lemma attribute_detail (k : string) (e : Json) (path : list string) (v : string) :
  attribute e (k :: path) = Some v
  <-> exists fs e', e = JObj fs /\ field k fs = Some e' /\ attribute e' path = Some v.
Proof.
  split.
  - destruct e as [s | fs]; cbn [attribute]; [ discriminate | ].
    destruct (field k fs) as [e' | ] eqn:E; [ | discriminate ].
    intros H. exists fs, e'. auto.
  - intros (fs & e' & -> & E & H). cbn [attribute]. rewrite E. exact H.
Qed.

(** The filter of the change detector: source aws.rds, eventSource
    rds.amazonaws.com, eventName CreateDBInstance. *)
Lemma createDB_filter (e : Json) :
  matches eventBridgeCreateDBPattern e = true
  <-> attribute e ["source"] = Some "aws.rds"
      /\ attribute e ["detail"; "eventSource"] = Some "rds.amazonaws.com"
      /\ attribute e ["detail"; "eventName"] = Some "CreateDBInstance".
Proof.
  unfold eventBridgeCreateDBPattern.
  destruct e as [s | fs].
  - rewrite matches_object_string. split; [ discriminate | intros [[=] _] ].
  - rewrite !matches_object_cons, !andb_true_iff, field_leaf.
    change (matches (PObject []) (JObj fs)) with true.
    rewrite !attribute_detail.
    destruct (field "detail" fs) as [[s | dfs] | ] eqn:Ed.
    + rewrite matches_object_string.
      split; [ intros (_ & [=] & _) | ].
      intros (_ & (fs' & e' & [= <-] & E & H) & _).
      rewrite Ed in E. injection E as <-. discriminate H.
    + rewrite !matches_object_cons, !andb_true_iff, !field_leaf.
      change (matches (PObject []) (JObj dfs)) with true.
      split.
      * intros (Hs & (He & Hn & _) & _).
        repeat split; [ exact Hs | exists fs, (JObj dfs) .. ]; auto.
      * intros (Hs & (fs1 & e1 & [= <-] & E1 & H1) & (fs2 & e2 & [= <-] & E2 & H2)).
        rewrite Ed in E1, E2. injection E1 as <-. injection E2 as <-. auto.
    + split; [ intros (_ & [=] & _) | ].
      intros (_ & (fs' & e' & [= <-] & E & _) & _).
      rewrite Ed in E. discriminate E.
Qed.

(** ** C2: what invokes the DDL workers *)

(** C2, as stated, fails: the event bus hands a matching change-set event
    straight to the change-path worker, which has no event source on the
    queue. *)
Lemma change_worker_bypasses_queue :
  exists decls,
    synth sampleEnv = Ok decls
    /\ invokedByEvent decls executeChangeSetEvent = [ddlChangeFn]
    /\ triggersOf decls ddlChangeFn = [ByRule cfnChangesetRule]
    /\ ~ only_by_queue decls rdsDdlDetectionQueue ddlWorkers.
Proof.
  eexists. split; [ vm_compute; reflexivity | ].
  split; [ vm_compute; reflexivity | ].
  split; [ vm_compute; reflexivity | ].
  intros Hall.
  destruct (Hall ddlChangeFn (or_intror (or_introl eq_refl))) as [_ Hnever].
  apply (Hnever executeChangeSetEvent).
  vm_compute. left. reflexivity.
Qed.

(** C2, amended.  The init-path worker is invoked only by messages of the
    DDL trigger queue: its single trigger is the queue's event source, and
    no event invokes it directly.  The change-path worker is invoked only by
    the rule cfnChangesetRule, directly and without the queue, on exactly the
    events that match the rule's pattern. *)
Theorem ddl_worker_triggers (env : ProcessEnv) (decls : list Decl) :
  synth env = Ok decls ->
  triggersOf decls ddlInitDeployFn = [ByQueue rdsDdlDetectionQueue]
  /\ consumersOf decls rdsDdlDetectionQueue = [ddlInitDeployFn]
  /\ only_by_queue decls rdsDdlDetectionQueue [ddlInitDeployFn]
  /\ triggersOf decls ddlChangeFn = [ByRule cfnChangesetRule]
  /\ rulePattern decls cfnChangesetRule = Some (cfnChangesetPattern "ddlSourceStack")
  /\ (forall e, In ddlChangeFn (invokedByEvent decls e)
                <-> matches (cfnChangesetPattern "ddlSourceStack") e = true).
Proof.
  intros H.
  assert (Hinv := fun e => synth_invokedByEvent env decls e H).
  assert (Hinit : triggersOf decls ddlInitDeployFn = [ByQueue rdsDdlDetectionQueue])
    by (run_synth H; vm_compute; reflexivity).
  split; [ exact Hinit | ].
  split; [ run_synth H; vm_compute; reflexivity | ].
  split; [ | split; [ | split ] ].
  - intros w [<- | []]. split.
    + intros tr Htr. rewrite Hinit in Htr.
      destruct Htr as [<- | []]. reflexivity.
    + intros e. rewrite Hinv.
      repeat match goal with
             | |- context [matches ?p e] => destruct (matches p e)
             end; vm_compute; intuition discriminate.
  - run_synth H. vm_compute. reflexivity.
  - run_synth H. vm_compute. reflexivity.
  - intros e. rewrite Hinv.
    destruct (matches (cfnChangesetPattern "ddlSourceStack") e);
      repeat match goal with
             | |- context [matches ?p e] => destruct (matches p e)
             end; vm_compute; intuition discriminate.
Qed.

Lemma ddl_worker_triggers_witness :
  exists decls,
    synth sampleEnv = Ok decls
    /\ triggersOf decls ddlInitDeployFn = [ByQueue rdsDdlDetectionQueue]
    /\ only_by_queue decls rdsDdlDetectionQueue [ddlInitDeployFn]
    /\ triggersOf decls ddlChangeFn = [ByRule cfnChangesetRule].
Proof.
  eexists. split; [ vm_compute; reflexivity | ].
  refine (let H := ddl_worker_triggers sampleEnv _ _ in
          conj (proj1 H)
            (conj (proj1 (proj2 (proj2 H)))
               (proj1 (proj2 (proj2 (proj2 H)))))).
  vm_compute. reflexivity.
Defined.

(** ** C3: the change detector *)

Lemma synth_detectorSends (Message : Type) (triggerMessage : Json -> Message)
  (env : ProcessEnv) (decls : list Decl) (e : Json) :
  synth env = Ok decls ->
  detectorSends Message triggerMessage decls e
  = if matches eventBridgeCreateDBPattern e
    then [(queueUrl rdsDdlDetectionQueue, triggerMessage e)]
    else [].
Proof.
  intros H. unfold detectorSends.
  rewrite (synth_invokedByEvent env decls e H).
  assert (Hp : functionProps decls rdsDdlTriggerFn
               = Some {| code := fromAsset "../lambda/rds-ddl-trigger";
                         timeout := Duration.minutes 2;
                         memorySize := None;
                         architecture := None;
                         securityGroups := [];
                         environment :=
                           [("RDS_DDL_QUEUE_URL", queueUrl rdsDdlDetectionQueue)] |}).
  { run_synth H. vm_compute. reflexivity. }
  repeat match goal with
         | |- context [matches ?p e] => destruct (matches p e)
         end;
    cbn [app flat_map];
    repeat match goal with
           | |- context [String.eqb ?a ?b] =>
               let v := eval vm_compute in (String.eqb a b) in
               change (String.eqb a b) with v; cbv iota
           end;
    rewrite ?Hp; reflexivity.
Qed.

(** C3.  In every run that does not throw, and for every lifecycle event:
    when the event does not match the filter (source aws.rds, eventSource
    rds.amazonaws.com, eventName CreateDBInstance) the change detector
    sends nothing; when it matches, the detector makes exactly one send
    attempt, to the DDL trigger queue.  Nothing is remembered from one
    event to the next: over a stream of events the number of send attempts
    is the number of matching events, repeats included. *)
Theorem change_detector_sends (Message : Type) (triggerMessage : Json -> Message)
  (env : ProcessEnv) (decls : list Decl) :
  synth env = Ok decls ->
  (forall e,
     (attribute e ["source"] = Some "aws.rds"
      /\ attribute e ["detail"; "eventSource"] = Some "rds.amazonaws.com"
      /\ attribute e ["detail"; "eventName"] = Some "CreateDBInstance")
     <-> matches eventBridgeCreateDBPattern e = true)
  /\ (forall e, matches eventBridgeCreateDBPattern e = false ->
                detectorSends Message triggerMessage decls e = [])
  /\ (forall e, matches eventBridgeCreateDBPattern e = true ->
                detectorSends Message triggerMessage decls e
                = [(queueUrl rdsDdlDetectionQueue, triggerMessage e)])
  /\ (forall events,
        length (detectorSendsAll Message triggerMessage decls events)
        = length (filter (matches eventBridgeCreateDBPattern) events)).
Proof.
  intros H.
  assert (Hs := fun e => synth_detectorSends Message triggerMessage env decls e H).
  split; [ | split; [ | split ] ].
  - intros e. symmetry. apply createDB_filter.
  - intros e He. rewrite Hs, He. reflexivity.
  - intros e He. rewrite Hs, He. reflexivity.
  - induction events as [ | e events IH]; [ reflexivity | ].
    unfold detectorSendsAll in *. cbn [flat_map filter].
    rewrite length_app, IH, Hs.
    destruct (matches eventBridgeCreateDBPattern e); reflexivity.
Qed.


Lemma change_detector_sends_witness :
  exists decls,
    synth sampleEnv = Ok decls
    /\ detectorSends Json (fun e => e) decls createDBInstanceEvent
       = [(queueUrl rdsDdlDetectionQueue, createDBInstanceEvent)]
    /\ detectorSends Json (fun e => e) decls executeChangeSetEvent = []
    /\ length (detectorSendsAll Json (fun e => e) decls
                 [createDBInstanceEvent; executeChangeSetEvent; createDBInstanceEvent])
       = 2.
Proof.
  eexists. split; [ vm_compute; reflexivity | ].
  refine (let H := change_detector_sends Json (fun e => e) sampleEnv _ _ in
          conj (proj1 (proj2 (proj2 H)) createDBInstanceEvent eq_refl)
            (conj (proj1 (proj2 H) executeChangeSetEvent eq_refl)
               (proj2 (proj2 (proj2 H))
                  [createDBInstanceEvent; executeChangeSetEvent; createDBInstanceEvent]))).
  vm_compute. reflexivity.
Defined.

(** ** C9: the guards of the base stack *)

Ltac run_base_guards env :=
  unfold BaseInfraStack; cbv zeta;
  change (or_else (env "CDK_DEFAULT_REGION") "us-east-1") with (regionPrefixOf env).

(** C9.  The constructor of the base stack, from any scope and on any
    declarations made so far:
    - throws [Unsupported CDK_DEFAULT_REGION specified] when the region it
      settles on is none of us-east-1, us-west-2, eu-west-2;
    - throws when IAM_SELF_SIGNED_SERVER_CERT_NAME is undefined or empty
      (with the message that names the variable, once the region is
      accepted);
    - throws when COGNITO_DOMAIN_NAME is undefined or empty (with the message
      that names the variable, once the region and the certificate name are
      accepted);
    - settles on us-east-1 when CDK_DEFAULT_REGION is unset, and then does
      not throw the region error. *)
Theorem base_infra_guards (env : ProcessEnv) (this : string) (s : list Decl) :
  (includes validRegions (regionPrefixOf env) = false ->
   BaseInfraStack env this s = Throw "Unsupported CDK_DEFAULT_REGION specified")
  /\ (unspecified env "IAM_SELF_SIGNED_SERVER_CERT_NAME" ->
      exists m, BaseInfraStack env this s = Throw m
                /\ (includes validRegions (regionPrefixOf env) = true ->
                    m = please_specify "IAM_SELF_SIGNED_SERVER_CERT_NAME"))
  /\ (unspecified env "COGNITO_DOMAIN_NAME" ->
      exists m, BaseInfraStack env this s = Throw m
                /\ (includes validRegions (regionPrefixOf env) = true ->
                    specified env "IAM_SELF_SIGNED_SERVER_CERT_NAME" ->
                    m = please_specify "COGNITO_DOMAIN_NAME"))
  /\ (env "CDK_DEFAULT_REGION" = None ->
      regionPrefixOf env = "us-east-1"
      /\ includes validRegions (regionPrefixOf env) = true
      /\ BaseInfraStack env this s <> Throw "Unsupported CDK_DEFAULT_REGION specified").
Proof.
  split; [ | split; [ | split ] ].
  - intros Hr. run_base_guards env. rewrite Hr. reflexivity.
  - intros Hc. run_base_guards env.
    destruct (includes validRegions (regionPrefixOf env)).
    + exists (please_specify "IAM_SELF_SIGNED_SERVER_CERT_NAME").
      split; [ | reflexivity ].
      destruct Hc as [-> | ->]; reflexivity.
    + eexists. split; [ reflexivity | discriminate ].
  - intros Hd. run_base_guards env.
    destruct (includes validRegions (regionPrefixOf env)).
    + destruct (env "IAM_SELF_SIGNED_SERVER_CERT_NAME") as [certName | ] eqn:Hc.
      * destruct (String.eqb certName "") eqn:Hc'.
        -- eexists. split; [ reflexivity | ].
           intros _ (v & Hv & Hne). rewrite Hc in Hv. injection Hv as <-.
           apply String.eqb_eq in Hc'. contradiction.
        -- exists (please_specify "COGNITO_DOMAIN_NAME").
           split; [ | reflexivity ].
           destruct Hd as [-> | ->]; reflexivity.
      * eexists. split; [ reflexivity | ].
        intros _ (v & Hv & _). rewrite Hc in Hv. discriminate Hv.
    + eexists. split; [ reflexivity | discriminate ].
  - intros Hu.
    assert (Hp : regionPrefixOf env = "us-east-1")
      by (unfold regionPrefixOf; rewrite Hu; reflexivity).
    split; [ exact Hp | ]. split; [ rewrite Hp; reflexivity | ].
    run_base_guards env. rewrite Hp. cbn [includes validRegions existsb negb orb String.eqb Ascii.eqb Bool.eqb].
    destruct (env "IAM_SELF_SIGNED_SERVER_CERT_NAME") as [certName | ];
      [ destruct (String.eqb certName "") | ]; try discriminate.
    destruct (env "COGNITO_DOMAIN_NAME") as [cognitoDomain | ];
      [ destruct (String.eqb cognitoDomain "") | ]; discriminate.
Qed.

Lemma base_infra_guards_witness :
  BaseInfraStack unsupportedEnv "BaseInfraStack" []
    = Throw "Unsupported CDK_DEFAULT_REGION specified"
  /\ (exists m, BaseInfraStack emptyEnv "BaseInfraStack" [] = Throw m
                /\ (includes validRegions (regionPrefixOf emptyEnv) = true ->
                    m = please_specify "IAM_SELF_SIGNED_SERVER_CERT_NAME"))
  /\ regionPrefixOf emptyEnv = "us-east-1".
Proof.
  split; [ | split ].
  - apply (proj1 (base_infra_guards unsupportedEnv "BaseInfraStack" [])).
    vm_compute. reflexivity.
  - apply (proj1 (proj2 (base_infra_guards emptyEnv "BaseInfraStack" []))).
    left. reflexivity.
  - apply (proj2 (proj2 (proj2 (base_infra_guards emptyEnv "BaseInfraStack" [])))).
    reflexivity.
Defined.

(** The empty string is falsy: a region set to it is replaced by the default
    as an unset one is. *)
Remark empty_region_defaults (env : ProcessEnv) :
  env "CDK_DEFAULT_REGION" = Some "" -> regionPrefixOf env = "us-east-1".
Proof. intros H. unfold regionPrefixOf. rewrite H. reflexivity. Qed.

(** ** C6: the callback-URL patch *)

Lemma lowerAscii_not_upper (c : ascii) : isUpper (lowerAscii c) = false.
Proof.
  destruct c as [[] [] [] [] [] [] [] []]; reflexivity.
Qed.

Lemma lowerAscii_idempotent (c : ascii) : lowerAscii (lowerAscii c) = lowerAscii c.
Proof.
  unfold lowerAscii at 1. rewrite lowerAscii_not_upper. reflexivity.
Qed.

Lemma lower_noUpper (s : string) : noUpper (lower s) = true.
Proof.
  induction s as [ | c s IH]; [ reflexivity | ].
  cbn [lower noUpper]. rewrite lowerAscii_not_upper, IH. reflexivity.
Qed.

Lemma lower_idempotent (s : string) : lower (lower s) = lower s.
Proof.
  induction s as [ | c s IH]; [ reflexivity | ].
  cbn [lower]. rewrite lowerAscii_idempotent, IH. reflexivity.
Qed.

Lemma append_empty_r (s : string) : (s ++ "")%string = s.
Proof.
  induction s as [ | c s IH]; [ reflexivity | ].
  cbn [append]. rewrite IH. reflexivity.
Qed.

Lemma render_callbackUrl (resolve : Resolution) (host : string) :
  render resolve (callbackUrl (Lit host))
  = ("https://" ++ host ++ "/oauth2/idpresponse")%string.
Proof.
  unfold callbackUrl. cbn [render]. rewrite append_empty_r. reflexivity.
Qed.

(** C6.  In every run that does not throw, the patch worker (either of the
    two functions that run the patch) is handed the host name of the load
    balancer in ALB_DNS_NAME, and for every host name the deployment
    resolves it to and every client state: the patch stores, as the only
    callback URL, [https://<host>/oauth2/idpresponse] on the lower-cased host
    name, which holds no upper-case letter; and applying the patch again
    leaves the client as the first application left it. *)
Theorem callback_patch (env : ProcessEnv) (decls : list Decl) :
  synth env = Ok decls ->
  forall fn, In fn [callBackInitFn; callBackUpdateFn] ->
  exists p,
    functionProps decls fn = Some p
    /\ field "ALB_DNS_NAME" (environment p) = Some (loadBalancerDnsName appLoadBalancer)
    /\ forall (resolve : Resolution) (client : UserPoolClient),
         let host := resolve appLoadBalancer "loadBalancerDnsName" in
         let patched := callBackHandler resolve (environment p) client in
         CallbackURLs patched
         = [("https://" ++ lower host ++ "/oauth2/idpresponse")%string]
         /\ noUpper (lower host) = true
         /\ callBackHandler resolve (environment p) patched = patched.
Proof.
  intros H fn Hfn. run_synth H.
  destruct Hfn as [<- | [<- | []]]; eexists;
    (split; [ vm_compute; reflexivity | ]);
    (split; [ reflexivity | ]);
    intros resolve client; cbv zeta;
    unfold callBackHandler; cbn [field environment String.eqb Ascii.eqb Bool.eqb];
    rewrite render_callbackUrl;
    (split; [ reflexivity | split; [ apply lower_noUpper | reflexivity ] ]).
Qed.

Lemma callback_patch_witness :
  exists decls p,
    synth sampleEnv = Ok decls
    /\ functionProps decls callBackInitFn = Some p
    /\ forall client,
         CallbackURLs (callBackHandler scenarioResolution (environment p) client)
         = ["https://abc123.elb.amazonaws.com/oauth2/idpresponse"]
         /\ callBackHandler scenarioResolution (environment p)
              (callBackHandler scenarioResolution (environment p) client)
            = callBackHandler scenarioResolution (environment p) client.
Proof.
  eexists.
  refine (let H := callback_patch sampleEnv _ _ callBackInitFn (or_introl eq_refl) in
          match H with
          | ex_intro _ p (conj Hp (conj _ Hpatch)) =>
              ex_intro _ p
                (conj _ (conj Hp (fun client =>
                   conj (proj1 (Hpatch scenarioResolution client))
                        (proj2 (proj2 (Hpatch scenarioResolution client))))))
          end).
  Unshelve. all: vm_compute; reflexivity.
Defined.

(** * Further properties of the program *)

(** ** Queues, their producers and their consumers *)

(** X2.  In every run that does not throw, the program makes three SQS
    event sources, and for each of them the timeout of the function fed is
    within the visibility window of the queue, as the function service
    demands of an event source. *)
Theorem event_sources_within_visibility (env : ProcessEnv) (decls : list Decl) :
  synth env = Ok decls ->
  eventSources decls
  = [(appClientCreationQueue, callBackInitFn);
     (rdsDdlDetectionQueue, ddlInitDeployFn);
     (pgVectorUpdateQueue, pgvectorUpdateFn)]
  /\ forall q fn, In (q, fn) (eventSources decls) ->
       exists queue p,
         queueProps decls q = Some queue
         /\ functionProps decls fn = Some p
         /\ (timeout p <= visibilityTimeout queue)%N.
Proof.
  intros H. run_synth H. split; [ vm_compute; reflexivity | ].
  intros q fn Hin. vm_compute in Hin.
  destruct Hin as [[= <- <-] | [[= <- <-] | [[= <- <-] | []]]];
    do 2 eexists;
    (split; [ vm_compute; reflexivity | ]);
    (split; [ vm_compute; reflexivity | ]);
    discriminate.
Qed.

Lemma event_sources_within_visibility_witness :
  exists decls,
    synth sampleEnv = Ok decls
    /\ exists queue p,
         queueProps decls pgVectorUpdateQueue = Some queue
         /\ functionProps decls pgvectorUpdateFn = Some p
         /\ (timeout p <= visibilityTimeout queue)%N.
Proof.
  eexists. split; [ vm_compute; reflexivity | ].
  apply (proj2 (event_sources_within_visibility sampleEnv _
                  ltac:(vm_compute; reflexivity))).
  vm_compute. right. right. left. reflexivity.
Defined.

(** X3.  In every run that does not throw, every queue the program declares
    has exactly one producer and exactly one consumer, which are different
    functions: the producer is the one function granted the right to send to
    the queue, the consumer is the one function with an event source on it,
    and the environment of each of the two holds the URL of that queue. *)
Theorem queues_one_producer_one_consumer (env : ProcessEnv) (decls : list Decl) :
  synth env = Ok decls ->
  forall q queue, In (q, queue) (queuesOf decls) ->
    exists producer consumer pp pc kp kc,
      granteesOf decls GrantSendMessages q = [producer]
      /\ consumersOf decls q = [consumer]
      /\ producer <> consumer
      /\ functionProps decls producer = Some pp
      /\ functionProps decls consumer = Some pc
      /\ field kp (environment pp) = Some (queueUrl q)
      /\ field kc (environment pc) = Some (queueUrl q).
Proof.
  intros H. run_synth H. intros q queue Hin. vm_compute in Hin.
  destruct Hin as [[= <- <-] | [[= <- <-] | [[= <- <-] | []]]].
  - exists rdsDdlTriggerFn, ddlInitDeployFn. do 2 eexists.
    exists "RDS_DDL_QUEUE_URL", "SQS_QUEUE_URL".
    repeat (split; [ first [ vm_compute; reflexivity | discriminate ] | ]).
    vm_compute; reflexivity.
  - exists pgvectorTriggerFn, pgvectorUpdateFn. do 2 eexists.
    exists "PGVECTOR_UPDATE_QUEUE", "QUEUE_URL".
    repeat (split; [ first [ vm_compute; reflexivity | discriminate ] | ]).
    vm_compute; reflexivity.
  - exists appClientCreateTriggerFn, callBackInitFn. do 2 eexists.
    exists "TRIGGER_QUEUE", "SQS_QUEUE_URL".
    repeat (split; [ first [ vm_compute; reflexivity | discriminate ] | ]).
    vm_compute; reflexivity.
Qed.

Lemma queues_one_producer_one_consumer_witness :
  exists decls,
    synth sampleEnv = Ok decls
    /\ exists producer consumer pp pc kp kc,
         granteesOf decls GrantSendMessages appClientCreationQueue = [producer]
         /\ consumersOf decls appClientCreationQueue = [consumer]
         /\ producer <> consumer
         /\ functionProps decls producer = Some pp
         /\ functionProps decls consumer = Some pc
         /\ field kp (environment pp) = Some (queueUrl appClientCreationQueue)
         /\ field kc (environment pc) = Some (queueUrl appClientCreationQueue).
Proof.
  eexists. split; [ vm_compute; reflexivity | ].
  apply (queues_one_producer_one_consumer sampleEnv _ ltac:(vm_compute; reflexivity)
           appClientCreationQueue
           {| queueName := "COG_APP_CLIENT_CREATE_QUEUE";
              visibilityTimeout := Duration.minutes 5 |}).
  vm_compute. right. right. left. reflexivity.
Defined.

(** X4.  In every run that does not throw, the program declares nine
    functions and each of them has exactly one trigger: a queue, a rule or a
    bucket notification.  No function is left without a trigger and none is
    invoked from two places. *)
Theorem every_function_one_trigger (env : ProcessEnv) (decls : list Decl) :
  synth env = Ok decls ->
  length (functionsOf decls) = 9
  /\ forall fn p, In (fn, p) (functionsOf decls) ->
       exists tr, triggersOf decls fn = [tr].
Proof.
  intros H. run_synth H. split; [ vm_compute; reflexivity | ].
  intros fn p Hin.
  match goal with
  | |- exists tr, triggersOf ?d fn = [tr] =>
      assert (Hall : forallb (fun fp : string * FunctionProps =>
                                match triggersOf d (fst fp) with
                                | [_] => true
                                | _ => false
                                end) (functionsOf d) = true)
        by (vm_compute; reflexivity);
      rewrite forallb_forall in Hall; specialize (Hall (fn, p) Hin);
      cbn [fst] in Hall;
      destruct (triggersOf d fn) as [ | tr [ | ]]
  end; try discriminate Hall.
  exists tr. reflexivity.
Qed.

Lemma every_function_one_trigger_witness :
  exists decls,
    synth sampleEnv = Ok decls
    /\ exists tr, triggersOf decls pdfProcessorFn = [tr].
Proof.
  eexists. split; [ vm_compute; reflexivity | ].
  eapply (proj2 (every_function_one_trigger sampleEnv _ ltac:(vm_compute; reflexivity))
            pdfProcessorFn).
  vm_compute. left. reflexivity.
Defined.

(** ** Patterns and the events they accept *)

Lemma field_In {A : Type} (k : string) (fs : list (string * A)) (v : A) :
  field k fs = Some v -> In (k, v) fs.
Proof.
  induction fs as [ | [k' v'] fs IH]; cbn [field]; [ discriminate | ].
  destruct (String.eqb k k') eqn:E.
  - intros [= ->]. apply String.eqb_eq in E. subst k'. left. reflexivity.
  - intros H. right. apply IH, H.
Qed.

(** A matching event holds, at every leaf of the pattern, one of the strings
    the leaf accepts. *)
Lemma matches_at (path : list string) :
  forall (p : Pattern) (e : Json) (accepted : list string),
    matches p e = true ->
    patternAt p path = Some (PValues accepted) ->
    exists s, attribute e path = Some s /\ includes accepted s = true.
Proof.
  induction path as [ | k path IH]; intros p e accepted Hm Hp.
  - cbn [patternAt] in Hp. injection Hp as ->.
    destruct e as [s | fs]; cbn [matches] in Hm; [ | discriminate ].
    exists s. split; [ reflexivity | exact Hm ].
  - destruct p as [vals | pfs]; cbn [patternAt] in Hp; [ discriminate | ].
    destruct (field k pfs) as [p' | ] eqn:Ep; [ | discriminate ].
    destruct e as [s | fs]; cbn [matches] in Hm; [ discriminate | ].
    rewrite forallb_forall in Hm.
    specialize (Hm (k, p') (field_In k pfs p' Ep)). cbn [fst snd] in Hm.
    cbn [attribute].
    destruct (field k fs) as [e' | ]; [ | discriminate ].
    exact (IH p' e' accepted Hm Hp).
Qed.

Lemma matches_at_one (path : list string) (p : Pattern) (e : Json) (v : string) :
  matches p e = true ->
  patternAt p path = Some (PValues [v]) ->
  attribute e path = Some v.
Proof.
  intros Hm Hp. destruct (matches_at path p e [v] Hm Hp) as (s & Hs & Hv).
  apply includes_singleton in Hv. subst s. exact Hs.
Qed.

Lemma matches_cons_iff (k : string) (p : Pattern) (ps : list (string * Pattern))
  (e : Json) :
  matches (PObject ((k, p) :: ps)) e = true
  <-> (exists e', member e k = Some e' /\ matches p e' = true)
      /\ matches (PObject ps) e = true.
Proof.
  destruct e as [s | fs].
  - cbn [matches member]. split; [ discriminate | intros [(e' & [=] & _) _] ].
  - rewrite matches_object_cons, andb_true_iff. cbn [member].
    destruct (field k fs) as [e' | ].
    + split.
      * intros [H1 H2]. split; [ exists e'; auto | exact H2 ].
      * intros [(e'' & [= <-] & H1) H2]. auto.
    + split; [ intros [[=] _] | intros [(e'' & [=] & _) _] ].
Qed.

Lemma matches_nil_iff (e : Json) :
  matches (PObject []) e = true <-> exists fs, e = JObj fs.
Proof.
  destruct e as [s | fs]; cbn [matches forallb].
  - split; [ discriminate | intros [fs [=]] ].
  - split; [ intros _; exists fs; reflexivity | reflexivity ].
Qed.

Lemma attribute_cons_iff (k : string) (path : list string) (e : Json) (v : string) :
  attribute e (k :: path) = Some v
  <-> exists e', member e k = Some e' /\ attribute e' path = Some v.
Proof.
  destruct e as [s | fs]; cbn [attribute member].
  - split; [ discriminate | intros (e' & [=] & _) ].
  - destruct (field k fs) as [e' | ].
    + split; [ intros H; exists e'; auto | intros (e'' & [= <-] & H); exact H ].
    + split; [ discriminate | intros (e' & [=] & _) ].
Qed.

Lemma member_object (e e' : Json) (k : string) :
  member e k = Some e' -> exists fs, e = JObj fs.
Proof.
  destruct e as [s | fs]; [ discriminate | ]. intros _. exists fs. reflexivity.
Qed.

(** Builds a match from the attributes of the event, leaf by leaf. *)
Ltac build_match :=
  repeat first
    [ apply matches_nil_iff; eapply member_object; eassumption
    | apply matches_leaf; assumption
    | apply matches_cons_iff; split; [ eexists; split; [ eassumption | ] | ] ].

(** The filter of the change-path rule, for every name of the DDL source
    stack.  Whatever else the event holds is ignored. *)
Lemma cfnChangeset_filter (ddlSourceStackName : string) (e : Json) :
  matches (cfnChangesetPattern ddlSourceStackName) e = true
  <-> attribute e ["source"] = Some "aws.cloudformation"
      /\ attribute e ["detail"; "eventSource"] = Some "cloudformation.amazonaws.com"
      /\ attribute e ["detail"; "eventName"] = Some "ExecuteChangeSet"
      /\ attribute e ["detail"; "requestParameters"; "stackName"]
         = Some ddlSourceStackName.
Proof.
  split.
  - intros H. repeat split; apply (matches_at_one _ _ _ _ H); reflexivity.
  - intros (Hs & Hes & Hen & Hst).
    apply attribute_cons_iff in Hs as (s & Ms & Hs).
    apply attribute_cons_iff in Hes as (d & Md & Hes).
    apply attribute_cons_iff in Hen as (d' & Md' & Hen).
    apply attribute_cons_iff in Hst as (d'' & Md'' & Hst).
    rewrite Md in Md', Md''. injection Md' as <-. injection Md'' as <-.
    apply attribute_cons_iff in Hes as (es & Mes & Hes).
    apply attribute_cons_iff in Hen as (en & Men & Hen).
    apply attribute_cons_iff in Hst as (r & Mr & Hst).
    apply attribute_cons_iff in Hst as (st & Mst & Hst).
    unfold cfnChangesetPattern. build_match.
Qed.

Lemma client_filter (eventName : string) (e : Json) :
  matches (clientPattern eventName) e = true
  <-> attribute e ["source"] = Some "aws.cognito-idp"
      /\ attribute e ["detail"; "eventSource"] = Some "cognito-idp.amazonaws.com"
      /\ attribute e ["detail"; "eventName"] = Some eventName
      /\ attribute e ["detail"; "sourceIPAddress"] = Some "cloudformation.amazonaws.com".
Proof.
  split.
  - intros H. repeat split; apply (matches_at_one _ _ _ _ H); reflexivity.
  - intros (Hs & Hes & Hen & Hip).
    apply attribute_cons_iff in Hs as (s & Ms & Hs).
    apply attribute_cons_iff in Hes as (d & Md & Hes).
    apply attribute_cons_iff in Hen as (d' & Md' & Hen).
    apply attribute_cons_iff in Hip as (d'' & Md'' & Hip).
    rewrite Md in Md', Md''. injection Md' as <-. injection Md'' as <-.
    apply attribute_cons_iff in Hes as (es & Mes & Hes).
    apply attribute_cons_iff in Hen as (en & Men & Hen).
    apply attribute_cons_iff in Hip as (ip & Mip & Hip).
    unfold clientPattern. build_match.
Qed.

(** An event invokes a function that is the target of one rule exactly when
    it matches the pattern of that rule. *)
Ltac invoked_iff e :=
  repeat match goal with
         | |- context [matches ?p e] => destruct (matches p e)
         end; vm_compute; intuition discriminate.

(** X5.  In every run that does not throw, and for every lifecycle event:
    the change-path DDL worker is invoked exactly when the event is an
    ExecuteChangeSet call of CloudFormation on the stack ddlSourceStack, the
    stack whose bucket deployment uploads the DDL source; whatever else the
    event holds is ignored. *)
Theorem change_worker_invoked_iff (env : ProcessEnv) (decls : list Decl) :
  synth env = Ok decls ->
  deploymentsTo decls ddlSourceBucket
  = [(child (stackName "ddlSourceStack") "deployDDLSourceRDS", "../scripts/rds-ddl-sql")]
  /\ forall e,
       In ddlChangeFn (invokedByEvent decls e)
       <-> attribute e ["source"] = Some "aws.cloudformation"
           /\ attribute e ["detail"; "eventSource"] = Some "cloudformation.amazonaws.com"
           /\ attribute e ["detail"; "eventName"] = Some "ExecuteChangeSet"
           /\ attribute e ["detail"; "requestParameters"; "stackName"]
              = Some (stackName "ddlSourceStack").
Proof.
  intros H. split; [ run_synth H; vm_compute; reflexivity | ].
  intros e. rewrite <- cfnChangeset_filter.
  rewrite (synth_invokedByEvent env decls e H).
  unfold stackName.
  destruct (matches (cfnChangesetPattern "ddlSourceStack") e); invoked_iff e.
Qed.

Lemma change_worker_invoked_iff_witness :
  exists decls,
    synth sampleEnv = Ok decls
    /\ In ddlChangeFn (invokedByEvent decls executeChangeSetEvent).
Proof.
  eexists. split; [ vm_compute; reflexivity | ].
  apply (proj2 (change_worker_invoked_iff sampleEnv _ ltac:(vm_compute; reflexivity))).
  vm_compute. repeat split.
Defined.

(** Two of the program's patterns never accept the same event: they ask for
    different event names. *)
Ltac event_names e :=
  repeat match goal with
         | H : matches _ e = true |- _ =>
             eapply (matches_at_one ["detail"; "eventName"]) in H; [ | reflexivity ]
         end.

(** X6.  In every run that does not throw, no lifecycle event invokes more
    than one function: the four rules of the program accept pairwise
    disjoint sets of events. *)
Theorem at_most_one_function_per_event (env : ProcessEnv) (decls : list Decl) :
  synth env = Ok decls ->
  forall e, length (invokedByEvent decls e) <= 1.
Proof.
  intros H e. rewrite (synth_invokedByEvent env decls e H).
  destruct (matches eventBridgeCreateDBPattern e) eqn:H1;
    destruct (matches appClientCreatePattern e) eqn:H2;
    destruct (matches appClientUpdatePattern e) eqn:H3;
    destruct (matches (cfnChangesetPattern "ddlSourceStack") e) eqn:H4;
    cbn [app length]; try lia;
    exfalso; event_names e; congruence.
Qed.

Lemma at_most_one_function_per_event_witness :
  exists decls,
    synth sampleEnv = Ok decls
    /\ length (invokedByEvent decls createDBInstanceEvent) <= 1.
Proof.
  eexists. split; [ vm_compute; reflexivity | ].
  apply (at_most_one_function_per_event sampleEnv _ ltac:(vm_compute; reflexivity)).
Defined.

(** X7.  In every run that does not throw, and for every lifecycle event:
    the function that enqueues a patch request is invoked exactly on a
    CreateUserPoolClient call, and the update function exactly on an
    UpdateUserPoolClient call, of the identity provider, made by
    CloudFormation.  A call made by anyone else, such as the update call a
    patch function makes itself, invokes neither of them. *)
Theorem client_rules_invoked_iff (env : ProcessEnv) (decls : list Decl) :
  synth env = Ok decls ->
  forall e,
    (In appClientCreateTriggerFn (invokedByEvent decls e)
     <-> attribute e ["source"] = Some "aws.cognito-idp"
         /\ attribute e ["detail"; "eventSource"] = Some "cognito-idp.amazonaws.com"
         /\ attribute e ["detail"; "eventName"] = Some "CreateUserPoolClient"
         /\ attribute e ["detail"; "sourceIPAddress"]
            = Some "cloudformation.amazonaws.com")
    /\ (In callBackUpdateFn (invokedByEvent decls e)
        <-> attribute e ["source"] = Some "aws.cognito-idp"
            /\ attribute e ["detail"; "eventSource"] = Some "cognito-idp.amazonaws.com"
            /\ attribute e ["detail"; "eventName"] = Some "UpdateUserPoolClient"
            /\ attribute e ["detail"; "sourceIPAddress"]
               = Some "cloudformation.amazonaws.com")
    /\ (attribute e ["detail"; "sourceIPAddress"] <> Some "cloudformation.amazonaws.com" ->
        ~ In appClientCreateTriggerFn (invokedByEvent decls e)
        /\ ~ In callBackUpdateFn (invokedByEvent decls e)).
Proof.
  intros H e.
  assert (Hc : In appClientCreateTriggerFn (invokedByEvent decls e)
               <-> matches (clientPattern "CreateUserPoolClient") e = true).
  { rewrite (synth_invokedByEvent env decls e H).
    change (clientPattern "CreateUserPoolClient") with appClientCreatePattern.
    destruct (matches appClientCreatePattern e); invoked_iff e. }
  assert (Hu : In callBackUpdateFn (invokedByEvent decls e)
               <-> matches (clientPattern "UpdateUserPoolClient") e = true).
  { rewrite (synth_invokedByEvent env decls e H).
    change (clientPattern "UpdateUserPoolClient") with appClientUpdatePattern.
    destruct (matches appClientUpdatePattern e); invoked_iff e. }
  rewrite client_filter in Hc, Hu.
  split; [ exact Hc | ]. split; [ exact Hu | ].
  intros Hip. split; intros Hin.
  - apply Hc in Hin. apply Hip, Hin.
  - apply Hu in Hin. apply Hip, Hin.
Qed.

Lemma client_rules_invoked_iff_witness :
  exists decls,
    synth sampleEnv = Ok decls
    /\ ~ In appClientCreateTriggerFn (invokedByEvent decls selfUpdateEvent)
    /\ ~ In callBackUpdateFn (invokedByEvent decls selfUpdateEvent).
Proof.
  eexists. split; [ vm_compute; reflexivity | ].
  apply (proj2 (proj2 (client_rules_invoked_iff sampleEnv _
                         ltac:(vm_compute; reflexivity) selfUpdateEvent))).
  vm_compute. discriminate.
Defined.

(** ** The construct tree *)

Lemma includes_In (l : list string) (x : string) : includes l x = true <-> In x l.
Proof.
  unfold includes. rewrite existsb_exists. split.
  - intros (y & Hy & E). apply String.eqb_eq in E. subst y. exact Hy.
  - intros Hx. exists x. split; [ exact Hx | apply String.eqb_refl ].
Qed.

Lemma distinct_NoDup (l : list string) : distinct l = true -> NoDup l.
Proof.
  induction l as [ | x l IH]; cbn [distinct]; intros H; [ constructor | ].
  apply andb_true_iff in H as [Hx Hl].
  constructor; [ | apply IH, Hl ].
  intros Hin. apply includes_In in Hin. rewrite Hin in Hx. discriminate Hx.
Qed.

(** X8.  In every run that does not throw, the program creates 47
    constructs in its stacks, the policy construct of the pgvector-update
    stack among them, and their paths are pairwise different: no identifier
    is used twice in a scope. *)
Theorem construct_paths_distinct (env : ProcessEnv) (decls : list Decl) :
  synth env = Ok decls ->
  length (declaredPaths decls) = 47
  /\ In (child "PGVectorUpdateStack" "dbCredsSecretsManagerPolicy") (declaredPaths decls)
  /\ NoDup (declaredPaths decls).
Proof.
  intros H. run_synth H. split; [ vm_compute; reflexivity | ].
  split; [ apply includes_In; vm_compute; reflexivity | ].
  apply distinct_NoDup. vm_compute. reflexivity.
Qed.

Lemma construct_paths_distinct_witness :
  exists decls,
    synth sampleEnv = Ok decls
    /\ length (declaredPaths decls) = 47
    /\ NoDup (declaredPaths decls).
Proof.
  eexists. split; [ vm_compute; reflexivity | ].
  refine (let H := construct_paths_distinct sampleEnv _ _ in
          conj (proj1 H) (proj2 (proj2 H))).
  vm_compute. reflexivity.
Defined.

(** ** The document pipeline *)

(** X10.  In every run that does not throw, the document pipeline is chained
    through its two buckets, and each stage is granted the access its
    environment names.  The PDF processor is triggered by the notifications
    of the knowledge-base bucket, is granted read on that bucket and is told
    its name in SOURCE_BUCKET_NAME; it is granted write on the processed-text
    bucket, whose name it is told in DESTINATION_BUCKET_NAME.  The
    notifications of the processed-text bucket trigger the pgvector trigger,
    which is told the bucket's name in BUCKET_NAME, and the pgvector-update
    function is granted read on it. *)
Theorem document_pipeline (env : ProcessEnv) (decls : list Decl) :
  synth env = Ok decls ->
  triggersOf decls pdfProcessorFn = [ByBucket knowledgeBaseBucketPath]
  /\ option_map environment (functionProps decls pdfProcessorFn)
     = Some [("SOURCE_BUCKET_NAME", bucketName knowledgeBaseBucketPath);
             ("DESTINATION_BUCKET_NAME", bucketName processedTextBucket)]
  /\ granted decls GrantRead knowledgeBaseBucketPath pdfProcessorFn = true
  /\ granted decls GrantWrite processedTextBucket pdfProcessorFn = true
  /\ triggersOf decls pgvectorTriggerFn = [ByBucket processedTextBucket]
  /\ option_map (fun p => field "BUCKET_NAME" (environment p))
       (functionProps decls pgvectorTriggerFn)
     = Some (Some (bucketName processedTextBucket))
  /\ granted decls GrantRead processedTextBucket pgvectorUpdateFn = true.
Proof.
  intros H. run_synth H.
  repeat (split; [ vm_compute; reflexivity | ]).
  vm_compute. reflexivity.
Qed.

Lemma document_pipeline_witness :
  exists decls,
    synth sampleEnv = Ok decls
    /\ triggersOf decls pdfProcessorFn = [ByBucket knowledgeBaseBucketPath]
    /\ granted decls GrantRead processedTextBucket pgvectorUpdateFn = true.
Proof.
  eexists. split; [ vm_compute; reflexivity | ].
  refine (let H := document_pipeline sampleEnv _ _ in
          conj (proj1 H) (proj2 (proj2 (proj2 (proj2 (proj2 (proj2 H))))))).
  vm_compute. reflexivity.
Defined.

(** ** Secrets, policies and the network *)



Lemma architectureOf_arm (dockerPlatform : option string) :
  architectureOf dockerPlatform = ARM_64 <-> dockerPlatform = Some "arm".
Proof.
  unfold architectureOf. destruct dockerPlatform as [p | ].
  - destruct (String.eqb p "arm") eqn:E.
    + apply String.eqb_eq in E. subst p. split; reflexivity.
    + apply String.eqb_neq in E. split; [ discriminate | intros [= ->]; contradiction ].
  - split; discriminate.
Qed.

(** X12.  In every run that does not throw, every function built from a
    container image is declared with one and the same architecture, ARM_64
    exactly when DOCKER_CONTAINER_PLATFORM_ARCH is arm and X86_64 otherwise
    (also when the variable is unset); the functions built from a source
    directory declare none. *)
Theorem image_functions_one_architecture (env : ProcessEnv) (decls : list Decl) :
  synth env = Ok decls ->
  (forall fn p, In (fn, p) (functionsOf decls) ->
     architecture p
     = match code p with
       | fromAssetImage _ => Some (architectureOf (dockerPlatformOf env))
       | fromAsset _ => None
       end)
  /\ (architectureOf (dockerPlatformOf env) = ARM_64
      <-> dockerPlatformOf env = Some "arm")
  /\ (architectureOf (dockerPlatformOf env) = X86_64
      <-> dockerPlatformOf env <> Some "arm").
Proof.
  intros H. split; [ | split ].
  - run_synth H. unfold dockerPlatformOf. rewrite <- Harch.
    intros fn p Hin. vm_compute in Hin.
    repeat (destruct Hin as [[= <- <-] | Hin]; [ reflexivity | ]).
    contradiction Hin.
  - apply architectureOf_arm.
  - rewrite <- architectureOf_arm.
    destruct (architectureOf (dockerPlatformOf env)); split; congruence.
Qed.

Lemma image_functions_one_architecture_witness :
  exists decls,
    synth sampleEnv = Ok decls
    /\ forall fn p, In (fn, p) (functionsOf decls) ->
         architecture p
         = match code p with
           | fromAssetImage _ => Some (architectureOf (dockerPlatformOf sampleEnv))
           | fromAsset _ => None
           end.
Proof.
  eexists. split; [ vm_compute; reflexivity | ].
  refine (proj1 (image_functions_one_architecture sampleEnv _ _)).
  vm_compute. reflexivity.
Defined.

(** X13.  In every run that does not throw, the security group of the
    database admits exactly three peers, each on TCP port 5432 only: the
    group of the functions, the group of the test instance and the group of
    the tasks.  Every function either declares no security group or
    declares the group of the functions alone, and every function granted
    the right to connect to the database is one of the latter. *)
Theorem database_network (env : ProcessEnv) (decls : list Decl) :
  synth env = Ok decls ->
  ingressOf decls rdsSecurityGroup
  = [(lambdaSecurityGroup, 5432%N); (ec2SecurityGroup, 5432%N); (ragAppSecGroup, 5432%N)]
  /\ (forall fn p, In (fn, p) (functionsOf decls) ->
        securityGroups p = [] \/ securityGroups p = [lambdaSecurityGroup])
  /\ (forall fn p, In (fn, p) (functionsOf decls) ->
        In fn (granteesOf decls GrantConnect rdsInstance) ->
        securityGroups p = [lambdaSecurityGroup]).
Proof.
  intros H. run_synth H. split; [ vm_compute; reflexivity | ]. split.
  - intros fn p Hin. vm_compute in Hin.
    repeat (destruct Hin as [[= <- <-] | Hin];
            [ first [ left; reflexivity | right; reflexivity ] | ]).
    contradiction Hin.
  - intros fn p Hin Hg. vm_compute in Hin. vm_compute in Hg.
    repeat (destruct Hin as [[= <- <-] | Hin];
            [ first [ reflexivity | exfalso; intuition discriminate ] | ]).
    contradiction Hin.
Qed.

Lemma database_network_witness :
  exists decls,
    synth sampleEnv = Ok decls
    /\ forall fn p, In (fn, p) (functionsOf decls) ->
         securityGroups p = [] \/ securityGroups p = [lambdaSecurityGroup].
Proof.
  eexists. split; [ vm_compute; reflexivity | ].
  refine (proj1 (proj2 (database_network sampleEnv _ _))).
  vm_compute. reflexivity.
Defined.



(** X15.  In every run that does not throw, the DDL source reaches both DDL
    workers through one bucket: the bucket is named ddl-source- followed by
    the identifier of the database instance, the directory
    scripts/rds-ddl-sql is the one directory the program deploys into it,
    the DDL_SOURCE_BUCKET variable of both workers carries its name, and
    both workers are granted read on it. *)
Theorem ddl_source_bucket (env : ProcessEnv) (decls : list Decl) :
  synth env = Ok decls ->
  bucketNameOf decls ddlSourceBucket
  = Some (Some (Template [Lit "ddl-source-"; instanceIdentifier rdsInstance]))
  /\ map snd (deploymentsTo decls ddlSourceBucket) = ["../scripts/rds-ddl-sql"]
  /\ (forall w, In w ddlWorkers ->
        option_map (fun p => field "DDL_SOURCE_BUCKET" (environment p))
          (functionProps decls w)
        = Some (Some (bucketName ddlSourceBucket))
        /\ granted decls GrantRead ddlSourceBucket w = true).
Proof.
  intros H. run_synth H.
  split; [ vm_compute; reflexivity | ]. split; [ vm_compute; reflexivity | ].
  intros w [<- | [<- | []]]; split; vm_compute; reflexivity.
Qed.

Lemma ddl_source_bucket_witness :
  exists decls,
    synth sampleEnv = Ok decls
    /\ forall w, In w ddlWorkers ->
         option_map (fun p => field "DDL_SOURCE_BUCKET" (environment p))
           (functionProps decls w)
         = Some (Some (bucketName ddlSourceBucket))
         /\ granted decls GrantRead ddlSourceBucket w = true.
Proof.
  eexists. split; [ vm_compute; reflexivity | ].
  refine (let H := ddl_source_bucket sampleEnv _ _ in proj2 (proj2 H)).
  vm_compute. reflexivity.
Defined.
